(** * ESPino32 OTA demo: a shallow embedding of [main.cpp]

    The sketch is a single translation unit: a handful of [constexpr]
    configuration values, two global flags, the Arduino entry points
    [setup] and [loop], and the helpers [initializeWiFi], [reconnect],
    [updatedCallback], [progressCallback] and [blink].

    Everything the sketch does is a call into the Arduino core, the WiFi
    driver or the ThingsBoard client.  Those calls are modelled as
    observable events; the values they hand back come from an oracle, so
    that every statement below quantifies over all behaviours of the
    outside world. *)

From Stdlib Require Import String Ascii List ZArith Bool Arith Lia.
Import ListNotations.
Local Open Scope string_scope.

(** ** Fixed-width integers *)

Definition uint8_t (v : Z) : Z := Z.modulo v (2 ^ 8).
Definition uint16_t (v : Z) : Z := Z.modulo v (2 ^ 16).
Definition uint32_t (v : Z) : Z := Z.modulo v (2 ^ 32).

(** ** Configuration constants (main.cpp, lines 8-40) *)

Definition CURRENT_FIRMWARE_TITLE : string := "ESPino32".
Definition CURRENT_FIRMWARE_VERSION : string := "1.0.0".
Definition FW_STATE_UPDATED : string := "UPDATED".
Definition FIRMWARE_FAILURE_RETRIES : Z := uint8_t 5.
Definition FIRMWARE_PACKET_SIZE : Z := uint16_t 4096.
Definition WIFI_SSID : string := "YOUR_WIFI_SSID".
Definition WIFI_PASSWORD : string := "YOUR_WIFI_PASSWORD".
Definition TOKEN : string := "YOUR_DEVICE_ACCESS_TOKEN".
Definition TONYSPACE_SERVER : string := "vsmqtt.space".
Definition TONYSPACE_PORT : Z := uint16_t 8080.
Definition MAX_MESSAGE_SIZE : Z := uint32_t 512.
Definition SERIAL_DEBUG_BAUD : Z := uint32_t 115200.

(** The two [printf] formats of the sketch (lines 77 and 131); both end in
    a line feed. *)

Definition line_feed : string := String (ascii_of_nat 10) EmptyString.

Definition connect_format : string :=
  "Connecting to: (%s) with token (%s)" ++ line_feed.

Definition progress_format : string := "Progress %.2f%%" ++ line_feed.

(** ** The OTA callback object (main.cpp, line 58)

    [OTA_Update_Callback] is declared by the ThingsBoard client; the record
    keeps the six constructor arguments in the order the sketch passes
    them.  The two function pointers are kept symbolically. *)

Inductive callback_ptr : Type :=
| addr_progressCallback
| addr_updatedCallback.

Record OTA_Update_Callback : Type := mkOTA {
  ota_progress : callback_ptr;
  ota_updated : callback_ptr;
  ota_title : string;
  ota_version : string;
  ota_retries : Z;
  ota_packet_size : Z
}.

Definition callback : OTA_Update_Callback :=
  mkOTA addr_progressCallback addr_updatedCallback
        CURRENT_FIRMWARE_TITLE CURRENT_FIRMWARE_VERSION
        FIRMWARE_FAILURE_RETRIES FIRMWARE_PACKET_SIZE.

(** ** Firmware descriptors and the eligibility check *)

(** Modelled from the spec: the firmware descriptor of the data model
    (title, version, total size, checksum, chunk size).  main.cpp holds
    only the running title and version (lines 8-9) and hands them to the
    ThingsBoard client at line 58. *)
Record FirmwareDescriptor : Type := mkDescriptor {
  title : string;
  version : string;
  total_size : Z;
  checksum : list Byte.byte;
  chunk_size : Z
}.

(** Modelled from the spec: [is_update_needed], the comparison of the
    running descriptor with an announced one.  The comparison is made
    inside the ThingsBoard client and is not part of main.cpp; the comment
    at lines 6-7 of main.cpp describes it in the same words. *)
Definition is_update_needed (running announced : FirmwareDescriptor) : bool :=
  String.eqb (title running) (title announced) &&
  negb (String.eqb (version running) (version announced)).

(** An order on dotted decimal versions.  Nothing in the sketch or in the
    check uses it; it only says what "older" means. *)
Fixpoint version_fields (s : string) (cur : nat) (acc : list nat)
  : list nat :=
  match s with
  | EmptyString => rev (cur :: acc)
  | String c rest =>
      if Ascii.eqb c "."%char then version_fields rest 0 (cur :: acc)
      else version_fields rest (10 * cur + (nat_of_ascii c - 48)) acc
  end.

Fixpoint fields_lt (a b : list nat) : bool :=
  match a, b with
  | [], [] => false
  | [], _ :: _ => true
  | _ :: _, [] => false
  | x :: a', y :: b' =>
      if Nat.ltb x y then true
      else if Nat.ltb y x then false
      else fields_lt a' b'
  end.

Definition version_older (a b : string) : bool :=
  fields_lt (version_fields a 0 []) (version_fields b 0 []).

(** ** GPIO names used by [setup] and [blink] *)

Inductive pin : Type := LED_BUILTIN.
Inductive pin_mode : Type := OUTPUT.
Inductive level : Type := HIGH | LOW.

(** ** The WiFi status type

    [wl_status_t] and [WL_CONNECTED] come from the WiFi driver's headers.
    The sketch only ever compares a status with [WL_CONNECTED], so the
    model takes the type, that one value and the comparison as parameters. *)

Class WiFiType : Type := {
  wl_status_t : Type;
  WL_CONNECTED : wl_status_t;
  wl_status_eq_dec : forall a b : wl_status_t, {a = b} + {a <> b}
}.

(** What the ThingsBoard client answers during one pass through [loop]:
    the result each call would return if the pass makes it, and the
    callbacks the client invokes from inside [tb.loop()]. *)

Inductive ota_message : Type :=
| Progress (currentChunk totalChuncks : Z)
| Finished (success : bool).

Record tb_replies : Type := mkReplies {
  connected_reply : bool;
  connect_reply : bool;
  send_info_reply : bool;
  send_state_reply : bool;
  subscribe_reply : bool;
  loop_dispatch : list ota_message
}.

(** The globals of the sketch (lines 49-50), plus the number of
    [WiFi.status()] calls made so far, which indexes the status oracle. *)

Record State : Type := mkState {
  currentFWSent : bool;
  updateRequestSent : bool;
  polls : nat
}.

Definition initial_state : State := mkState false false 0.

Section Sketch.

Context {wifi_type : WiFiType}.

(** ** Observable events: one per call that leaves the sketch *)

Inductive event : Type :=
| EvSerialBegin (baud : Z)
| EvSerialPrint (s : string)
| EvSerialPrintln (s : string)
| EvSerialPrintf (fmt : string) (args : list string)
| EvSerialPrintfRatio (fmt : string) (num den : Z)
| EvDelay (ms : Z)
| EvPinMode (p : pin) (m : pin_mode)
| EvDigitalWrite (p : pin) (l : level)
| EvWiFiBegin (ssid pass : string)
| EvWiFiStatus (r : wl_status_t)
| EvTbConnected (r : bool)
| EvTbConnect (host token : string) (port : Z) (r : bool)
| EvFirmwareSendInfo (title version : string) (r : bool)
| EvFirmwareSendState (state : string) (r : bool)
| EvSubscribeFirmwareUpdate (cb : OTA_Update_Callback) (r : bool)
| EvTbLoop
| EvEspRestart.

(** The [k]-th call of [WiFi.status()] since boot returns [oracle k]. *)
Definition WiFiOracle : Type := nat -> wl_status_t.

(** ** The computation monad

    A computation reads the oracle, threads the state and emits events.
    It ends in one of three ways: it returns; it calls [esp_restart()],
    after which nothing of the sketch runs any more; or it is still inside
    a wait loop when the fuel granted to that loop is used up. *)

Inductive outcome (A : Type) : Type :=
| Done (a : A) (s : State) (t : list event)
| Reboot (s : State) (t : list event)
| Spinning (s : State) (t : list event).

Arguments Done {A} a s t.
Arguments Reboot {A} s t.
Arguments Spinning {A} s t.

Definition M (A : Type) : Type := WiFiOracle -> State -> outcome A.

Definition events {A} (o : outcome A) : list event :=
  match o with Done _ _ t | Reboot _ t | Spinning _ t => t end.

Definition final {A} (o : outcome A) : State :=
  match o with Done _ s _ | Reboot s _ | Spinning s _ => s end.

Definition returned {A} (o : outcome A) : bool :=
  match o with Done _ _ _ => true | _ => false end.

Definition prepend {A} (t0 : list event) (o : outcome A) : outcome A :=
  match o with
  | Done a s t => Done a s (t0 ++ t)
  | Reboot s t => Reboot s (t0 ++ t)
  | Spinning s t => Spinning s (t0 ++ t)
  end.

Definition ret {A} (a : A) : M A := fun _ s => Done a s [].

Definition bind {A B} (m : M A) (f : A -> M B) : M B :=
  fun w s =>
    match m w s with
    | Done a s1 t1 => prepend t1 (f a w s1)
    | Reboot s1 t1 => Reboot s1 t1
    | Spinning s1 t1 => Spinning s1 t1
    end.

Definition emit (e : event) : M unit := fun _ s => Done tt s [e].
Definition answer (a : bool) (e : bool -> event) : M bool :=
  fun _ s => Done a s [e a].
Definition get {A} (f : State -> A) : M A := fun _ s => Done (f s) s [].
Definition modify (f : State -> State) : M unit := fun _ s => Done tt (f s) [].
Definition out_of_fuel {A} : M A := fun _ s => Spinning s [].

Notation "x <- m ;; k" := (bind m (fun x => k))
  (at level 61, m at next level, right associativity).
Notation "m ;; k" := (bind m (fun _ => k))
  (at level 61, right associativity).

(** ** Library calls *)

Definition Serial_begin (baud : Z) : M unit := emit (EvSerialBegin baud).
Definition Serial_print (s : string) : M unit := emit (EvSerialPrint s).
Definition Serial_println (s : string) : M unit := emit (EvSerialPrintln s).
Definition Serial_printf (fmt : string) (args : list string) : M unit :=
  emit (EvSerialPrintf fmt args).
Definition delay (ms : Z) : M unit := emit (EvDelay ms).
Definition pinMode (p : pin) (m : pin_mode) : M unit := emit (EvPinMode p m).
Definition digitalWrite (p : pin) (l : level) : M unit :=
  emit (EvDigitalWrite p l).
Definition WiFi_begin (ssid pass : string) : M unit :=
  emit (EvWiFiBegin ssid pass).

Definition WiFi_status : M wl_status_t :=
  fun w s =>
    Done (w (polls s))
         (mkState (currentFWSent s) (updateRequestSent s) (S (polls s)))
         [EvWiFiStatus (w (polls s))].

(** [esp_restart()] does not return. *)
Definition esp_restart : M unit := fun _ s => Reboot s [EvEspRestart].

Definition tb_connected (tb : tb_replies) : M bool :=
  answer (connected_reply tb) EvTbConnected.
Definition tb_connect (tb : tb_replies) (host token : string) (port : Z)
  : M bool :=
  answer (connect_reply tb) (EvTbConnect host token port).
Definition tb_Firmware_Send_Info (tb : tb_replies) (title version : string)
  : M bool :=
  answer (send_info_reply tb) (EvFirmwareSendInfo title version).
Definition tb_Firmware_Send_State (tb : tb_replies) (state : string)
  : M bool :=
  answer (send_state_reply tb) (EvFirmwareSendState state).
Definition tb_Subscribe_Firmware_Update (tb : tb_replies)
  (cb : OTA_Update_Callback) : M bool :=
  answer (subscribe_reply tb) (EvSubscribeFirmwareUpdate cb).

(** C++ [a && b]: [b] is evaluated only when [a] is true. *)
Definition and_then (a b : M bool) : M bool :=
  x <- a ;; if x then b else ret false.

Definition set_currentFWSent (v : bool) : M unit :=
  modify (fun s => mkState v (updateRequestSent s) (polls s)).
Definition set_updateRequestSent (v : bool) : M unit :=
  modify (fun s => mkState (currentFWSent s) v (polls s)).

(** ** initializeWiFi (lines 98-107)

    [wait_connected] is the [while (WiFi.status() != WL_CONNECTED)] loop;
    [fuel] bounds the number of times its condition is evaluated. *)

Fixpoint wait_connected (fuel : nat) : M unit :=
  match fuel with
  | O => out_of_fuel
  | S fuel' =>
      st <- WiFi_status ;;
      if wl_status_eq_dec st WL_CONNECTED then ret tt
      else delay 500 ;; Serial_print "." ;; wait_connected fuel'
  end.

Definition initializeWiFi (fuel : nat) : M unit :=
  Serial_println "Connecting to AP ..." ;;
  WiFi_begin WIFI_SSID WIFI_PASSWORD ;;
  wait_connected fuel ;;
  Serial_println "Connected to AP".

(** ** reconnect (lines 109-119) *)

Definition reconnect (fuel : nat) : M bool :=
  status <- WiFi_status ;;
  if wl_status_eq_dec status WL_CONNECTED then ret true
  else initializeWiFi fuel ;; ret true.

(** ** updatedCallback (lines 121-128) *)

Definition updatedCallback (success : bool) : M unit :=
  (if success
   then Serial_println "Done, Reboot now" ;; esp_restart
   else ret tt) ;;
  Serial_println "Downloading firmware failed".

(** ** progressCallback (lines 130-132)

    The product [currentChunk * 100U] is an unsigned 32-bit product; the
    quotient is a [float] and is kept as numerator and denominator. *)

Definition progressCallback (currentChunk totalChuncks : Z) : M unit :=
  emit (EvSerialPrintfRatio progress_format
          (uint32_t (currentChunk * 100)) totalChuncks).

(** ** blink (lines 134-139) *)

Definition blink : M unit :=
  digitalWrite LED_BUILTIN HIGH ;;
  delay 1000 ;;
  digitalWrite LED_BUILTIN LOW ;;
  delay 1000.

(** ** tb.loop(): the client runs the registered callbacks *)

Definition invoke (m : ota_message) : M unit :=
  match m with
  | Progress c t => progressCallback c t
  | Finished ok => updatedCallback ok
  end.

Fixpoint dispatch (msgs : list ota_message) : M unit :=
  match msgs with
  | [] => ret tt
  | m :: rest => invoke m ;; dispatch rest
  end.

Definition tb_loop (tb : tb_replies) : M unit :=
  emit EvTbLoop ;; dispatch (loop_dispatch tb).

(** ** setup (lines 60-67) *)

Definition setup (fuel : nat) : M unit :=
  Serial_begin SERIAL_DEBUG_BAUD ;;
  delay 1000 ;;
  initializeWiFi fuel ;;
  pinMode LED_BUILTIN OUTPUT.

(** ** loop (lines 69-96)

    The result says through which [return] the pass left the function. *)

Inductive loop_exit : Type :=
| Return_line_71
| Return_line_80
| Return_end.

(** Lines 84-86. *)
Definition report_firmware (tb : tb_replies) : M unit :=
  sent <- get currentFWSent ;;
  if negb sent then
    r <- and_then
           (tb_Firmware_Send_Info tb CURRENT_FIRMWARE_TITLE
                                  CURRENT_FIRMWARE_VERSION)
           (tb_Firmware_Send_State tb FW_STATE_UPDATED) ;;
    set_currentFWSent r
  else ret tt.

(** Lines 88-91. *)
Definition request_update (tb : tb_replies) : M unit :=
  sent <- get updateRequestSent ;;
  if negb sent then
    Serial_println "Firwmare Update Subscription..." ;;
    r <- tb_Subscribe_Firmware_Update tb callback ;;
    set_updateRequestSent r
  else ret tt.

(** Lines 84-95. *)
Definition loop_tail (tb : tb_replies) : M loop_exit :=
  report_firmware tb ;;
  request_update tb ;;
  blink ;;
  tb_loop tb ;;
  ret Return_end.

Definition loop (fuel : nat) (tb : tb_replies) : M loop_exit :=
  r <- reconnect fuel ;;
  if negb r then ret Return_line_71
  else
    c <- tb_connected tb ;;
    if negb c then
      Serial_printf connect_format
                    [TONYSPACE_SERVER; TOKEN] ;;
      ok <- tb_connect tb TONYSPACE_SERVER TOKEN TONYSPACE_PORT ;;
      if negb ok then
        Serial_println "Failed to connect" ;;
        ret Return_line_80
      else loop_tail tb
    else loop_tail tb.

(** ** The Arduino runtime: [setup()] once, then [loop()] over and over.

    [loops fuel tbs] makes one pass per element of [tbs]. *)

Fixpoint loops (fuel : nat) (tbs : list tb_replies) : M unit :=
  match tbs with
  | [] => ret tt
  | tb :: rest => loop fuel tb ;; loops fuel rest
  end.

Definition arduino_main (fuel : nat) (tbs : list tb_replies) : M unit :=
  setup fuel ;; loops fuel tbs.

End Sketch.

Arguments Done {wifi_type A} a s t.
Arguments Reboot {wifi_type A} s t.
Arguments Spinning {wifi_type A} s t.

(** ** A concrete status type, used to run the model

    The status values of the Arduino WiFi driver. *)

Module Arduino.

Inductive wl_status : Type :=
| WL_NO_SHIELD
| WL_IDLE_STATUS
| WL_NO_SSID_AVAIL
| WL_SCAN_COMPLETED
| WL_CONNECTED
| WL_CONNECT_FAILED
| WL_CONNECTION_LOST
| WL_DISCONNECTED.

Definition wl_status_eq (a b : wl_status) : {a = b} + {a <> b}.
Proof. decide equality. Defined.

Definition wifi : WiFiType :=
  Build_WiFiType wl_status WL_CONNECTED wl_status_eq.

End Arduino.

(** Status sequences and client answers used in the concrete runs. *)

Definition always_up : @WiFiOracle Arduino.wifi :=
  fun _ => Arduino.WL_CONNECTED.

Definition never_up : @WiFiOracle Arduino.wifi :=
  fun _ => Arduino.WL_DISCONNECTED.

Definition up_after (n : nat) : @WiFiOracle Arduino.wifi :=
  fun k =>
    if Nat.ltb k n then Arduino.WL_DISCONNECTED else Arduino.WL_CONNECTED.

Definition all_fine : tb_replies :=
  mkReplies true true true true true [].

Definition state_refused : tb_replies :=
  mkReplies true true true false true [].

Definition server_down : tb_replies :=
  mkReplies false false true true true [].

Definition update_done : tb_replies :=
  mkReplies true true true true true [Progress 3 3; Finished true].


(** The running firmware of the sketch, and an announcement of an older
    version of the same title (three packets of 4096 bytes). *)

Definition running_firmware : FirmwareDescriptor :=
  mkDescriptor CURRENT_FIRMWARE_TITLE CURRENT_FIRMWARE_VERSION
               12288 [] FIRMWARE_PACKET_SIZE.

Definition announced_downgrade : FirmwareDescriptor :=
  mkDescriptor "ESPino32" "0.9.0" 12288 [] 4096.

(** ** Reading a trace *)

Section Traces.

Context {wifi_type : WiFiType}.

(** Events of the WiFi bring-up code ([reconnect], [initializeWiFi]). *)
Definition wifi_event (e : event) : bool :=
  match e with
  | EvWiFiStatus _ | EvWiFiBegin _ _ | EvDelay _
  | EvSerialPrint _ | EvSerialPrintln _ => true
  | _ => false
  end.

(** Events the two registered callbacks can produce. *)
Definition callback_event (e : event) : bool :=
  match e with
  | EvSerialPrintln _ | EvSerialPrintfRatio _ _ _ | EvEspRestart => true
  | _ => false
  end.

(** Protocol actions: firmware info, firmware state, the update
    subscription, and the processing of transport messages. *)
Definition protocol_event (e : event) : bool :=
  match e with
  | EvFirmwareSendInfo _ _ _ | EvFirmwareSendState _ _
  | EvSubscribeFirmwareUpdate _ _ | EvTbLoop => true
  | _ => false
  end.

Definition is_send_info (e : event) : bool :=
  match e with EvFirmwareSendInfo _ _ _ => true | _ => false end.

Definition is_send_state (e : event) : bool :=
  match e with EvFirmwareSendState _ _ => true | _ => false end.

Definition is_subscribe (e : event) : bool :=
  match e with EvSubscribeFirmwareUpdate _ _ => true | _ => false end.

Definition is_restart (e : event) : bool :=
  match e with EvEspRestart => true | _ => false end.

Definition is_status (e : event) : bool :=
  match e with EvWiFiStatus _ => true | _ => false end.

Definition count (p : event -> bool) (t : list event) : nat :=
  length (filter p t).

(** The answer of the most recent [WiFi.status()] call in a trace. *)
Fixpoint last_status (t : list event) : option wl_status_t :=
  match t with
  | [] => None
  | e :: rest =>
      match last_status rest with
      | Some r => Some r
      | None => match e with EvWiFiStatus r => Some r | _ => None end
      end
  end.

(** The most recent answer about the server link: the result of the last
    [tb.connected()] or [tb.connect()] call in a trace. *)
Fixpoint server_link (t : list event) : option bool :=
  match t with
  | [] => None
  | e :: rest =>
      match server_link rest with
      | Some r => Some r
      | None =>
          match e with
          | EvTbConnected r | EvTbConnect _ _ _ r => Some r
          | _ => None
          end
      end
  end.

(** Total time spent in [delay], in milliseconds. *)
Fixpoint time_delayed (t : list event) : Z :=
  match t with
  | [] => 0
  | EvDelay ms :: rest => ms + time_delayed rest
  | _ :: rest => time_delayed rest
  end.

Definition same_flags (s s' : State) : Prop :=
  currentFWSent s' = currentFWSent s /\
  updateRequestSent s' = updateRequestSent s.

(** Starting at poll [p], the first [WL_CONNECTED] answer is [d] polls away. *)
Definition first_up (w : WiFiOracle) (p d : nat) : Prop :=
  w (p + d) = WL_CONNECTED /\ forall j, j < d -> w (p + j) <> WL_CONNECTED.

(** From poll [p] on, the next [n] answers are all different from
    [WL_CONNECTED]. *)
Definition down_for (w : WiFiOracle) (p n : nat) : Prop :=
  forall j, j < n -> w (p + j) <> WL_CONNECTED.

Definition spinning {A} (o : outcome A) : bool :=
  match o with Spinning _ _ => true | _ => false end.

Definition rebooted {A} (o : outcome A) : bool :=
  match o with Reboot _ _ => true | _ => false end.

(** What lines 74-82 emit, as a function of the client's answers. *)
Definition link_events (tb : tb_replies) : list event :=
  if connected_reply tb then [EvTbConnected true]
  else
    EvTbConnected false
    :: EvSerialPrintf connect_format
                      [TONYSPACE_SERVER; TOKEN]
    :: EvTbConnect TONYSPACE_SERVER TOKEN TONYSPACE_PORT (connect_reply tb)
    :: (if connect_reply tb then []
        else [EvSerialPrintln "Failed to connect"]).

(** What lines 84-86 emit. *)
Definition report_events (s : State) (tb : tb_replies) : list event :=
  if currentFWSent s then []
  else if send_info_reply tb
       then [EvFirmwareSendInfo CURRENT_FIRMWARE_TITLE
                                CURRENT_FIRMWARE_VERSION true;
             EvFirmwareSendState FW_STATE_UPDATED (send_state_reply tb)]
       else [EvFirmwareSendInfo CURRENT_FIRMWARE_TITLE
                                CURRENT_FIRMWARE_VERSION false].

(** What lines 88-91 emit. *)
Definition request_events (s : State) (tb : tb_replies) : list event :=
  if updateRequestSent s then []
  else [EvSerialPrintln "Firwmare Update Subscription...";
        EvSubscribeFirmwareUpdate callback (subscribe_reply tb)].

Definition blink_events : list event :=
  [EvDigitalWrite LED_BUILTIN HIGH; EvDelay 1000;
   EvDigitalWrite LED_BUILTIN LOW; EvDelay 1000].

(** The flags after lines 84-91. *)
Definition tail_state (s : State) (tb : tb_replies) : State :=
  mkState (currentFWSent s || (send_info_reply tb && send_state_reply tb))
          (updateRequestSent s || subscribe_reply tb)
          (polls s).

Definition is_link (e : event) : bool :=
  match e with EvTbConnected _ | EvTbConnect _ _ _ _ => true | _ => false end.

(** Events of [setup]. *)
Definition boot_event (e : event) : bool :=
  match e with
  | EvSerialBegin _ | EvPinMode _ _ => true
  | _ => wifi_event e
  end.

(** A successful [Firmware_Send_Info] of the running title and version. *)
Definition is_info_success (e : event) : bool :=
  match e with
  | EvFirmwareSendInfo ti v true =>
      String.eqb ti CURRENT_FIRMWARE_TITLE &&
      String.eqb v CURRENT_FIRMWARE_VERSION
  | _ => false
  end.

(** A successful [Firmware_Send_State]. *)
Definition is_state_success (e : event) : bool :=
  match e with EvFirmwareSendState _ true => true | _ => false end.

Definition is_state_updated (e : event) : bool :=
  match e with
  | EvFirmwareSendState state _ => String.eqb state FW_STATE_UPDATED
  | _ => false
  end.

(** Every [Firmware_Send_State] in [t] carries "UPDATED" and comes right
    after a successful [Firmware_Send_Info]; [prev] says whether the event
    just before [t] was one. *)
Fixpoint state_after_info (prev : bool) (t : list event) : bool :=
  match t with
  | [] => true
  | e :: rest =>
      (if is_send_state e then prev && is_state_updated e else true) &&
      state_after_info (is_info_success e) rest
  end.

(** A subscription event carries the [callback] object of line 58. *)
Definition configured_subscription (e : event) : Prop :=
  match e with
  | EvSubscribeFirmwareUpdate cb _ => cb = callback
  | _ => True
  end.

(** The events of lines 84-91: the three guarded client calls. *)
Definition guarded_call (e : event) : bool :=
  is_send_info e || is_send_state e || is_subscribe e.

Definition no_guarded_call (t : list event) : Prop :=
  Forall (fun e => guarded_call e = false) t.

End Traces.

(** ** More ways to read a trace *)

Section Readings.

Context {wifi_type : WiFiType}.

Definition is_wifi_begin (e : event) : bool :=
  match e with EvWiFiBegin _ _ => true | _ => false end.

(** The progress dot printed by the wait loop of [initializeWiFi]. *)
Definition is_dot (e : event) : bool :=
  match e with EvSerialPrint s => String.eqb s "." | _ => false end.

Definition is_tb_loop (e : event) : bool :=
  match e with EvTbLoop => true | _ => false end.

Definition is_connect (e : event) : bool :=
  match e with EvTbConnect _ _ _ _ => true | _ => false end.

Definition is_connected_query (e : event) : bool :=
  match e with EvTbConnected _ => true | _ => false end.

Definition is_subscribe_success (e : event) : bool :=
  match e with EvSubscribeFirmwareUpdate _ true => true | _ => false end.

Definition is_pin_mode (e : event) : bool :=
  match e with EvPinMode _ _ => true | _ => false end.

(** Any call into the ThingsBoard client. *)
Definition tb_call (e : event) : bool :=
  match e with
  | EvTbConnected _ | EvTbConnect _ _ _ _ | EvFirmwareSendInfo _ _ _
  | EvFirmwareSendState _ _ | EvSubscribeFirmwareUpdate _ _ | EvTbLoop => true
  | _ => false
  end.

(** Events of the [while] loop of [initializeWiFi]. *)
Definition wait_event (e : event) : bool :=
  match e with
  | EvWiFiStatus _ | EvDelay _ | EvSerialPrint _ => true
  | _ => false
  end.

(** Events of lines 74-93. *)
Definition body_event (e : event) : bool :=
  match e with
  | EvTbConnected _ | EvTbConnect _ _ _ _ | EvSerialPrintf _ _
  | EvSerialPrintln _ | EvFirmwareSendInfo _ _ _ | EvFirmwareSendState _ _
  | EvSubscribeFirmwareUpdate _ _ | EvDigitalWrite _ _ | EvDelay _ => true
  | _ => false
  end.

(** The state after one more [WiFi.status()] call. *)
Definition polled (s : State) : State :=
  mkState (currentFWSent s) (updateRequestSent s) (S (polls s)).

End Readings.

Section Properties.

Context {wifi_type : WiFiType}.

Local Open Scope nat_scope.
Local Open Scope list_scope.

(** *** Trace bookkeeping *)

Ltac all_of_class :=
  repeat first
    [ assumption
    | apply Forall_nil
    | apply Forall_cons; [reflexivity|]
    | apply (proj2 (Forall_app _ _ _)); split ].

Lemma count_app (p : event -> bool) (a b : list event) :
  count p (a ++ b) = count p a + count p b.
Proof. unfold count. now rewrite filter_app, length_app. Qed.

Lemma count_class (c p : event -> bool) (t : list event) :
  (forall e, c e = true -> p e = false) ->
  Forall (fun e => c e = true) t -> count p t = 0.
Proof.
  intros Hcp Ht. unfold count.
  induction Ht as [|e t He _ IH]; simpl; [reflexivity|].
  now rewrite (Hcp e He).
Qed.

Lemma count_zero_not_in (p : event -> bool) (t : list event) :
  count p t = 0 -> forall e, In e t -> p e = false.
Proof.
  unfold count. induction t as [|x t IH]; simpl; intros Hc e Hin; [easy|].
  destruct (p x) eqn:Hx; simpl in Hc; [discriminate|].
  destruct Hin as [->|Hin]; auto.
Qed.

Lemma last_status_app (a b : list event) :
  last_status (a ++ b) =
  match last_status b with Some r => Some r | None => last_status a end.
Proof.
  induction a as [|e a IH]; simpl.
  - now destruct (last_status b).
  - rewrite IH. now destruct (last_status b).
Qed.

Lemma last_status_keep (e : event) (t : list event) (r : wl_status_t) :
  last_status t = Some r -> last_status (e :: t) = Some r.
Proof. intros L. simpl. now rewrite L. Qed.

Lemma server_link_app (a b : list event) :
  server_link (a ++ b) =
  match server_link b with Some r => Some r | None => server_link a end.
Proof.
  induction a as [|e a IH]; simpl.
  - now destruct (server_link b).
  - rewrite IH. now destruct (server_link b).
Qed.

Lemma time_delayed_app (a b : list event) :
  time_delayed (a ++ b) = (time_delayed a + time_delayed b)%Z.
Proof.
  induction a as [|e a IH]; [reflexivity|].
  destruct e; cbn [time_delayed app]; rewrite IH; lia.
Qed.

Lemma last_status_none (t : list event) :
  count is_status t = 0 -> last_status t = None.
Proof.
  unfold count. induction t as [|e t IH]; [reflexivity|]. simpl.
  destruct e; simpl; intros H; try discriminate H; now rewrite IH.
Qed.

Lemma server_link_none (t : list event) :
  count is_link t = 0 -> server_link t = None.
Proof.
  unfold count. induction t as [|e t IH]; [reflexivity|]. simpl.
  destruct e; simpl; intros H; try discriminate H; now rewrite IH.
Qed.

Lemma split_after_prefix (p : event -> bool) (l1 l2 pre post : list event)
  (e : event) :
  l1 ++ l2 = pre ++ e :: post -> count p l1 = 0 -> p e = true ->
  exists pre', pre = l1 ++ pre' /\ l2 = pre' ++ e :: post.
Proof.
  revert pre. induction l1 as [|x l1 IH]; intros pre E C P.
  - now exists pre.
  - unfold count in C. simpl in C.
    destruct (p x) eqn:Px; [discriminate C|].
    destruct pre as [|y pre]; simpl in E; injection E as -> E.
    + congruence.
    + destruct (IH pre E C P) as (pre' & -> & ->). now exists pre'.
Qed.

(** *** The wait loop of [initializeWiFi] *)

Lemma wait_connected_cases (fuel : nat) (w : WiFiOracle) (s : State) :
  (exists s' t,
      wait_connected fuel w s = Done tt s' t /\ same_flags s s' /\
      Forall (fun e => wifi_event e = true) t /\
      last_status t = Some WL_CONNECTED) \/
  (exists s' t,
      wait_connected fuel w s = Spinning s' t /\ same_flags s s' /\
      Forall (fun e => wifi_event e = true) t).
Proof.
  revert s. induction fuel as [|fuel IH]; intros s.
  - right. exists s, []. simpl. unfold out_of_fuel.
    repeat split; constructor.
  - simpl. unfold bind, WiFi_status. simpl.
    destruct (wl_status_eq_dec (w (polls s)) WL_CONNECTED) as [Hup|Hdown].
    + left. eexists _, _. unfold ret. simpl. split; [reflexivity|].
      split; [now split|]. split; [repeat constructor|].
      simpl. now rewrite Hup.
    + unfold delay, Serial_print, emit. simpl.
      set (s1 := mkState _ _ _).
      destruct (IH s1) as [(s' & t & E & F & W & L)|(s' & t & E & F & W)];
        rewrite E; simpl.
      * left. eexists _, _. split; [reflexivity|]. split; [exact F|].
        split; [all_of_class|].
        do 3 apply last_status_keep. exact L.
      * right. eexists _, _. split; [reflexivity|]. split; [exact F|].
        all_of_class.
Qed.

(** Exact behaviour when the link comes up [d] polls from now. *)
Lemma wait_connected_done (d : nat) :
  forall (fuel : nat) (w : WiFiOracle) (s : State),
    first_up w (polls s) d -> d < fuel ->
    exists t,
      wait_connected fuel w s =
      Done tt (mkState (currentFWSent s) (updateRequestSent s)
                       (polls s + d + 1)) t /\
      length t = 3 * d + 1 /\
      time_delayed t = (500 * Z.of_nat d)%Z.
Proof.
  induction d as [|d IH]; intros fuel w s [Hup Hdown] Hfuel;
    (destruct fuel as [|fuel]; [lia|]); simpl;
    unfold bind, WiFi_status; simpl.
  - replace (polls s + 0) with (polls s) in Hup by lia.
    destruct (wl_status_eq_dec (w (polls s)) WL_CONNECTED) as [_|C];
      [|contradiction].
    unfold ret. simpl.
    replace (polls s + 0 + 1) with (S (polls s)) by lia.
    eexists. split; [reflexivity|split; reflexivity].
  - destruct (wl_status_eq_dec (w (polls s)) WL_CONNECTED) as [C|_].
    + exfalso. apply (Hdown 0); [lia|].
      now replace (polls s + 0) with (polls s) by lia.
    + unfold delay, Serial_print, emit. simpl.
      set (s1 := mkState _ _ _).
      replace (polls s + S d + 1) with (polls s1 + d + 1) by (simpl; lia).
      destruct (IH fuel w s1) as (t & E & L & T).
      * split; simpl.
        -- now replace (S (polls s + d)) with (polls s + S d) by lia.
        -- intros j Hj. replace (S (polls s + j)) with (polls s + S j) by lia.
           apply Hdown. lia.
      * lia.
      * rewrite E. simpl. eexists. split; [reflexivity|split].
        -- simpl. rewrite L. lia.
        -- cbn [time_delayed app]. rewrite T. lia.
Qed.

(** While the link stays down the wait loop uses up any fuel. *)
Lemma wait_connected_spin (fuel : nat) :
  forall (w : WiFiOracle) (s : State),
    down_for w (polls s) fuel ->
    exists s' t, wait_connected fuel w s = Spinning s' t.
Proof.
  induction fuel as [|fuel IH]; intros w s Hdown; simpl.
  - now exists s, [].
  - unfold bind, WiFi_status. simpl.
    destruct (wl_status_eq_dec (w (polls s)) WL_CONNECTED) as [C|_].
    + exfalso. apply (Hdown 0); [lia|].
      now replace (polls s + 0) with (polls s) by lia.
    + unfold delay, Serial_print, emit. simpl.
      set (s1 := mkState _ _ _).
      destruct (IH w s1) as (s' & t & E).
      * intros j Hj. simpl.
        replace (S (polls s + j)) with (polls s + S j) by lia.
        apply Hdown. lia.
      * rewrite E. simpl. now eexists _, _.
Qed.

(** *** reconnect *)

Lemma reconnect_cases (fuel : nat) (w : WiFiOracle) (s : State) :
  (exists s' t,
      reconnect fuel w s = Done true s' t /\ same_flags s s' /\
      Forall (fun e => wifi_event e = true) t /\
      last_status t = Some WL_CONNECTED) \/
  (exists s' t,
      reconnect fuel w s = Spinning s' t /\ same_flags s s' /\
      Forall (fun e => wifi_event e = true) t).
Proof.
  unfold reconnect, bind, WiFi_status. simpl.
  destruct (wl_status_eq_dec (w (polls s)) WL_CONNECTED) as [Hup|Hdown].
  - left. unfold ret. simpl. eexists _, _. split; [reflexivity|].
    split; [now split|]. split; [repeat constructor|].
    simpl. now rewrite Hup.
  - unfold initializeWiFi, bind, Serial_println, WiFi_begin, emit. simpl.
    set (s1 := mkState _ _ _).
    destruct (wait_connected_cases fuel w s1)
      as [(s' & t & E & F & W & L)|(s' & t & E & F & W)];
      rewrite E; simpl.
    + left. unfold ret. simpl. eexists _, _. split; [reflexivity|].
      split; [exact F|]. split.
      * all_of_class.
      * rewrite app_nil_r. do 3 apply last_status_keep.
        rewrite last_status_app. simpl. exact L.
    + right. eexists _, _. split; [reflexivity|]. split; [exact F|].
      all_of_class.
Qed.

Lemma reconnect_done (d fuel : nat) (w : WiFiOracle) (s : State) :
  first_up w (polls s) d -> d <= fuel ->
  exists t,
    reconnect fuel w s =
    Done true (mkState (currentFWSent s) (updateRequestSent s)
                       (polls s + d + 1)) t /\
    length t <= 3 * d + 2 /\
    (time_delayed t <= 500 * Z.of_nat d)%Z.
Proof.
  intros [Hup Hdown] Hfuel.
  unfold reconnect, bind, WiFi_status. simpl.
  destruct d as [|d].
  - replace (polls s + 0) with (polls s) in Hup by lia.
    destruct (wl_status_eq_dec (w (polls s)) WL_CONNECTED) as [_|C];
      [|contradiction].
    unfold ret. simpl.
    replace (polls s + 0 + 1) with (S (polls s)) by lia.
    eexists. split; [reflexivity|split; simpl; lia].
  - destruct (wl_status_eq_dec (w (polls s)) WL_CONNECTED) as [C|_].
    + exfalso. apply (Hdown 0); [lia|].
      now replace (polls s + 0) with (polls s) by lia.
    + unfold initializeWiFi, bind, Serial_println, WiFi_begin, emit. simpl.
      set (s1 := mkState _ _ _).
      replace (polls s + S d + 1) with (polls s1 + d + 1) by (simpl; lia).
      destruct (wait_connected_done d fuel w s1) as (t & E & L & T).
      * split; simpl.
        -- now replace (S (polls s + d)) with (polls s + S d) by lia.
        -- intros j Hj. replace (S (polls s + j)) with (polls s + S j) by lia.
           apply Hdown. lia.
      * lia.
      * rewrite E. unfold ret. simpl. eexists. split; [reflexivity|split].
        -- cbn [length]. rewrite !length_app, L. simpl. lia.
        -- cbn [time_delayed]. rewrite !time_delayed_app, T.
           cbn [time_delayed]. lia.
Qed.

Lemma reconnect_spin (fuel : nat) (w : WiFiOracle) (s : State) :
  down_for w (polls s) (S fuel) ->
  exists s' t, reconnect fuel w s = Spinning s' t.
Proof.
  intros Hdown. unfold reconnect, bind, WiFi_status. simpl.
  destruct (wl_status_eq_dec (w (polls s)) WL_CONNECTED) as [C|_].
  - exfalso. apply (Hdown 0); [lia|].
    now replace (polls s + 0) with (polls s) by lia.
  - unfold initializeWiFi, bind, Serial_println, WiFi_begin, emit. simpl.
    set (s1 := mkState _ _ _).
    destruct (wait_connected_spin fuel w s1) as (s' & t & E).
    + intros j Hj. simpl.
      replace (S (polls s + j)) with (polls s + S j) by lia.
      apply Hdown. lia.
    + rewrite E. simpl. now eexists _, _.
Qed.

(** *** The monad *)

Lemma events_prepend {A} (t : list event) (o : outcome A) :
  events (prepend t o) = t ++ events o.
Proof. now destruct o. Qed.

Lemma final_prepend {A} (t : list event) (o : outcome A) :
  final (prepend t o) = final o.
Proof. now destruct o. Qed.

Lemma prepend_prepend {A} (t1 t2 : list event) (o : outcome A) :
  prepend t1 (prepend t2 o) = prepend (t1 ++ t2) o.
Proof. destruct o; simpl; now rewrite app_assoc. Qed.

(** *** The callbacks and [tb.loop()] *)


Lemma updatedCallback_success (w : WiFiOracle) (s : State) :
  updatedCallback true w s =
  Reboot s [EvSerialPrintln "Done, Reboot now"; EvEspRestart].
Proof. reflexivity. Qed.

Lemma dispatch_cases (msgs : list ota_message) (w : WiFiOracle) (s : State) :
  exists t,
    Forall (fun e => callback_event e = true) t /\
    length t <= 2 * length msgs /\
    ((~ In (Finished true) msgs /\ count is_restart t = 0 /\
      dispatch msgs w s = Done tt s t) \/
     (In (Finished true) msgs /\
      (exists t', t = t' ++ [EvEspRestart] /\ count is_restart t' = 0) /\
      dispatch msgs w s = Reboot s t)).
Proof.
  induction msgs as [|m msgs IH]; simpl.
  - exists []. split; [constructor|]. split; [simpl; lia|].
    left. split; [tauto|]. split; reflexivity.
  - destruct IH as (t & C & L & H).
    unfold bind. destruct m as [c n|[|]]; simpl.
    + exists (EvSerialPrintfRatio progress_format (uint32_t (c * 100)) n
              :: t).
      split; [all_of_class|]. split; [simpl; lia|].
      destruct H as [(N & R & E)|(I & (t' & -> & R) & E)]; rewrite E; simpl.
      * left. split; [intros [X|X]; [discriminate|tauto]|]. now split.
      * right. split; [tauto|]. split; [|reflexivity].
        eexists (_ :: t'). split; [reflexivity|exact R].
    + exists [EvSerialPrintln "Done, Reboot now"; EvEspRestart].
      split; [all_of_class|]. split; [simpl; lia|].
      right. split; [now left|]. split; [|reflexivity].
      now exists [EvSerialPrintln "Done, Reboot now"].
    + exists (EvSerialPrintln "Downloading firmware failed" :: t).
      split; [all_of_class|]. split; [simpl; lia|].
      destruct H as [(N & R & E)|(I & (t' & -> & R) & E)]; rewrite E; simpl.
      * left. split; [intros [X|X]; [discriminate|tauto]|]. now split.
      * right. split; [tauto|]. split; [|reflexivity].
        eexists (_ :: t'). split; [reflexivity|exact R].
Qed.

(** *** Lines 84-95 *)

Lemma loop_tail_cases (tb : tb_replies) (w : WiFiOracle) (s : State) :
  exists td,
    Forall (fun e => callback_event e = true) td /\
    length td <= 2 * length (loop_dispatch tb) /\
    ((~ In (Finished true) (loop_dispatch tb) /\ count is_restart td = 0 /\
      loop_tail tb w s =
      Done Return_end (tail_state s tb)
           (report_events s tb ++ request_events s tb ++ blink_events ++
            EvTbLoop :: td)) \/
     (In (Finished true) (loop_dispatch tb) /\
      (exists t', td = t' ++ [EvEspRestart] /\ count is_restart t' = 0) /\
      loop_tail tb w s =
      Reboot (tail_state s tb)
             (report_events s tb ++ request_events s tb ++ blink_events ++
              EvTbLoop :: td))).
Proof.
  destruct (dispatch_cases (loop_dispatch tb) w (tail_state s tb))
    as (td & C & L & H).
  exists td. split; [exact C|]. split; [exact L|].
  destruct s as [sent req p], tb as [c1 c2 i st sub msgs].
  unfold tail_state, report_events, request_events in *. simpl in *.
  destruct H as [(N & R & E)|(I & R & E)]; [left|right];
    (split; [assumption|]); (split; [assumption|]);
    unfold loop_tail, report_firmware, request_update, tb_loop, blink, bind,
      and_then, bind, get, emit, answer, set_currentFWSent,
      set_updateRequestSent, modify, Serial_println, digitalWrite, delay,
      tb_Firmware_Send_Info, tb_Firmware_Send_State,
      tb_Subscribe_Firmware_Update, ret;
    destruct sent, req, i, st, sub; simpl in *; rewrite E; simpl;
    rewrite ?app_nil_r; reflexivity.
Qed.

(** *** One pass through [loop] *)

Lemma loop_cases (fuel : nat) (tb : tb_replies) (w : WiFiOracle) (s : State) :
  exists s1 t1,
    same_flags s s1 /\ Forall (fun e => wifi_event e = true) t1 /\
    ((reconnect fuel w s = Spinning s1 t1 /\
      loop fuel tb w s = Spinning s1 t1) \/
     (reconnect fuel w s = Done true s1 t1 /\
      last_status t1 = Some WL_CONNECTED /\
      ((connected_reply tb = false /\ connect_reply tb = false /\
        loop fuel tb w s = Done Return_line_80 s1 (t1 ++ link_events tb)) \/
       ((connected_reply tb = true \/ connect_reply tb = true) /\
        loop fuel tb w s =
        prepend (t1 ++ link_events tb) (loop_tail tb w s1))))).
Proof.
  destruct (reconnect_cases fuel w s)
    as [(s1 & t1 & E & F & W & L)|(s1 & t1 & E & F & W)];
    exists s1, t1; (split; [exact F|]); (split; [exact W|]).
  - right. split; [exact E|]. split; [exact L|].
    unfold loop, bind. rewrite E. simpl.
    unfold link_events, tb_connected, tb_connect, answer, Serial_printf,
      Serial_println, emit, ret.
    destruct (connected_reply tb) eqn:C1; simpl.
    + right. split; [now left|]. now rewrite prepend_prepend.
    + destruct (connect_reply tb) eqn:C2; simpl.
      * right. split; [now right|].
        rewrite !prepend_prepend. f_equal. now rewrite <- !app_assoc.
      * left. rewrite <- ?app_assoc. now repeat split.
  - left. split; [exact E|]. unfold loop, bind. now rewrite E.
Qed.

Lemma time_delayed_callbacks (t : list event) :
  Forall (fun e => callback_event e = true) t -> time_delayed t = 0%Z.
Proof.
  induction 1 as [|e t He _ IH]; [reflexivity|].
  destruct e; try discriminate He; cbn [time_delayed]; exact IH.
Qed.

Lemma report_events_flags (s s1 : State) (tb : tb_replies) :
  same_flags s s1 -> report_events s1 tb = report_events s tb.
Proof. intros [F _]. unfold report_events. now rewrite F. Qed.

Lemma request_events_flags (s s1 : State) (tb : tb_replies) :
  same_flags s s1 -> request_events s1 tb = request_events s tb.
Proof. intros [_ F]. unfold request_events. now rewrite F. Qed.

Lemma link_events_length (tb : tb_replies) :
  length (link_events tb) <= 4 /\ time_delayed (link_events tb) = 0%Z.
Proof.
  unfold link_events.
  destruct (connected_reply tb), (connect_reply tb); simpl; split;
    (lia || reflexivity).
Qed.

Lemma report_events_length (s : State) (tb : tb_replies) :
  length (report_events s tb) <= 2 /\ time_delayed (report_events s tb) = 0%Z.
Proof.
  unfold report_events.
  destruct (currentFWSent s), (send_info_reply tb); simpl; split;
    (lia || reflexivity).
Qed.

Lemma request_events_length (s : State) (tb : tb_replies) :
  length (request_events s tb) <= 2 /\
  time_delayed (request_events s tb) = 0%Z.
Proof.
  unfold request_events.
  destruct (updateRequestSent s); simpl; split; (lia || reflexivity).
Qed.

(** The four ways a pass can end: still waiting for the access point;
    server connection refused; end of the function; restart from inside
    [tb.loop()]. *)
Ltac pass_cases fuel tb w s :=
  let s1 := fresh "s1" in
  let t1 := fresh "t1" in
  let td := fresh "td" in
  let F := fresh "Flags" in
  let W := fresh "Wifi" in
  let R := fresh "Rec" in
  let E := fresh "Pass" in
  let L := fresh "Up" in
  let ET := fresh "Tail" in
  destruct (loop_cases fuel tb w s)
    as (s1 & t1 & F & W &
        [[R E] | (R & L & [(?Link1 & ?Link2 & E) | (?Link & E)])]);
  [ | | destruct (loop_tail_cases tb w s1)
          as (td & ?Cbs & ?Len &
              [(?NoSuccess & ?NoRestart & ET) | (?Success & ?Restart & ET)]);
        rewrite ET in E; cbn [prepend] in E;
        rewrite (report_events_flags s s1 tb F) in E;
        rewrite (request_events_flags s s1 tb F) in E ];
  rewrite E; cbn [events final spinning rebooted returned].

(** *** Results about [reconnect] and blocking *)

(** C9: whatever the WiFi status, a call of [reconnect] that comes back
    comes back with [true]: it confirms an existing connection at once, or
    it stays in [initializeWiFi] until the status is [WL_CONNECTED] and
    then returns [true].  Hence no pass through [loop] leaves by the
    [return] of line 71. *)
Theorem reconnect_only_returns_true
  (fuel : nat) (w : WiFiOracle) (s : State) :
  (forall r s' t, reconnect fuel w s = Done r s' t -> r = true) /\
  rebooted (reconnect fuel w s) = false /\
  (w (polls s) = WL_CONNECTED ->
   reconnect fuel w s =
   Done true (mkState (currentFWSent s) (updateRequestSent s) (S (polls s)))
        [EvWiFiStatus WL_CONNECTED]) /\
  (forall d, first_up w (polls s) d -> d <= fuel ->
     exists t,
       reconnect fuel w s =
       Done true (mkState (currentFWSent s) (updateRequestSent s)
                          (polls s + d + 1)) t /\
       last_status t = Some WL_CONNECTED) /\
  (down_for w (polls s) (S fuel) -> spinning (reconnect fuel w s) = true) /\
  (forall tb x s' t,
     loop fuel tb w s = Done x s' t -> x <> Return_line_71).
Proof.
  split; [|split; [|split; [|split; [|split]]]].
  - intros r s' t E.
    destruct (reconnect_cases fuel w s)
      as [(s1 & t1 & E1 & _)|(s1 & t1 & E1 & _)]; congruence.
  - destruct (reconnect_cases fuel w s)
      as [(s1 & t1 & E1 & _)|(s1 & t1 & E1 & _)]; now rewrite E1.
  - intros Hup. unfold reconnect, bind, WiFi_status. simpl.
    destruct (wl_status_eq_dec (w (polls s)) WL_CONNECTED) as [_|C];
      [|contradiction].
    unfold ret. simpl. now rewrite Hup.
  - intros d Hd Hfuel.
    destruct (reconnect_done d fuel w s Hd Hfuel) as (t & E & _).
    exists t. split; [exact E|].
    destruct (reconnect_cases fuel w s)
      as [(s1 & t1 & E1 & _ & _ & L)|(s1 & t1 & E1 & _)]; congruence.
  - intros Hdown.
    destruct (reconnect_spin fuel w s Hdown) as (s' & t & E). now rewrite E.
  - intros tb x s' t. pass_cases fuel tb w s; intros X; congruence.
Qed.

Lemma loop_spins (fuel : nat) (tb : tb_replies) (w : WiFiOracle) (s : State) :
  down_for w (polls s) (S fuel) -> spinning (loop fuel tb w s) = true.
Proof.
  intros Hdown.
  destruct (reconnect_spin fuel w s Hdown) as (s' & t & E).
  pass_cases fuel tb w s; try reflexivity; congruence.
Qed.

(** C6, as the code has it: a pass through [loop] comes to an end exactly
    when [WiFi.status()] answers [WL_CONNECTED] at the first poll or at a
    later poll of the wait loop.  If that answer is [d] polls away the pass
    makes [d + 1] polls, emits a bounded number of events and spends at most
    [500 * d + 2000] ms in [delay]; as long as the answers differ from
    [WL_CONNECTED] the pass stays inside [initializeWiFi]. *)
Theorem loop_ends_iff_wifi_comes_up
  (fuel : nat) (tb : tb_replies) (w : WiFiOracle) (s : State) :
  (forall d, first_up w (polls s) d -> d <= fuel ->
     spinning (loop fuel tb w s) = false /\
     polls (final (loop fuel tb w s)) = polls s + d + 1 /\
     length (events (loop fuel tb w s))
       <= 3 * d + 15 + 2 * length (loop_dispatch tb) /\
     (time_delayed (events (loop fuel tb w s))
        <= 500 * Z.of_nat d + 2000)%Z) /\
  (down_for w (polls s) (S fuel) -> spinning (loop fuel tb w s) = true).
Proof.
  split.
  - intros d Hd Hfuel.
    destruct (reconnect_done d fuel w s Hd Hfuel) as (t & E & Len & Time).
    pose proof (link_events_length tb) as [LL LT].
    pose proof (report_events_length s tb) as [PL PT].
    pose proof (request_events_length s tb) as [QL QT].
    assert (BL : length blink_events = 4) by reflexivity.
    assert (BT : time_delayed blink_events = 2000%Z) by reflexivity.
    pass_cases fuel tb w s; try congruence;
      rewrite E in Rec; injection Rec as <- <-;
      (split; [reflexivity|]); (split; [reflexivity|]);
      rewrite ?length_app, ?time_delayed_app; cbn [length];
      rewrite ?length_app, ?time_delayed_app; cbn [time_delayed length];
      rewrite ?(time_delayed_callbacks td) by assumption;
      split; lia.
  - apply loop_spins.
Qed.

(** *** Counting events of one pass *)

Ltac zero_counts :=
  repeat match goal with
  | H : Forall (fun e => wifi_event e = true) ?t |- context [count ?p ?t] =>
      rewrite (count_class wifi_event p t) by
        (assumption || (intros [] X; (discriminate X || reflexivity)))
  | H : Forall (fun e => callback_event e = true) ?t
    |- context [count ?p ?t] =>
      rewrite (count_class callback_event p t) by
        (assumption || (intros [] X; (discriminate X || reflexivity)))
  end.

Lemma pieces_without_restart (s : State) (tb : tb_replies) :
  count is_restart (link_events tb) = 0 /\
  count is_restart (report_events s tb) = 0 /\
  count is_restart (request_events s tb) = 0 /\
  count is_restart blink_events = 0 /\
  count is_restart [EvTbLoop] = 0.
Proof.
  unfold link_events, report_events, request_events.
  destruct (connected_reply tb), (connect_reply tb), (currentFWSent s),
    (updateRequestSent s), (send_info_reply tb); now cbn.
Qed.

Ltac no_restart_in_pieces s tb :=
  let A := fresh in
  let B := fresh in
  let C := fresh in
  let D := fresh in
  let E := fresh in
  destruct (pieces_without_restart s tb) as (A & B & C & D & E);
  rewrite ?A, ?B, ?C, ?D, ?E; reflexivity.

(** C4, as the code has it: the completion callback, called with
    [success == true], logs "Done, Reboot now" and calls [esp_restart()]
    itself; it does not return and hands no value back.  A pass through
    [loop] ends in a restart only in this way, with [esp_restart()] as its
    last event, and a pass that reaches [tb.loop()] while the client reports
    a successful update always ends so. *)
Theorem updatedCallback_restarts_in_place :
  (forall (w : WiFiOracle) (s : State),
     updatedCallback true w s =
     Reboot s [EvSerialPrintln "Done, Reboot now"; EvEspRestart]) /\
  (forall fuel tb (w : WiFiOracle) s,
     rebooted (loop fuel tb w s) = true ->
     In (Finished true) (loop_dispatch tb) /\
     exists t', events (loop fuel tb w s) = t' ++ [EvEspRestart] /\
                count is_restart t' = 0) /\
  (forall fuel tb (w : WiFiOracle) s,
     returned (loop fuel tb w s) = true ->
     count is_restart (events (loop fuel tb w s)) = 0) /\
  (forall fuel tb (w : WiFiOracle) s,
     spinning (loop fuel tb w s) = false ->
     connected_reply tb = true \/ connect_reply tb = true ->
     In (Finished true) (loop_dispatch tb) ->
     rebooted (loop fuel tb w s) = true).
Proof.
  split; [exact updatedCallback_success|]. split; [|split].
  - intros fuel tb w s. pass_cases fuel tb w s; try discriminate.
    intros _. split; [assumption|].
    destruct Restart as (t' & -> & Z).
    exists (t1 ++ link_events tb ++ report_events s tb ++
            request_events s tb ++ blink_events ++ EvTbLoop :: t').
    split.
    + rewrite <- ?app_assoc. cbn [app]. reflexivity.
    + rewrite !count_app. zero_counts.
      change (EvTbLoop :: t') with ([EvTbLoop] ++ t').
      rewrite count_app, Z. no_restart_in_pieces s tb.
  - intros fuel tb w s. pass_cases fuel tb w s; try discriminate; intros _.
    + rewrite !count_app. zero_counts. no_restart_in_pieces s tb.
    + rewrite !count_app.
      change (EvTbLoop :: td) with ([EvTbLoop] ++ td).
      rewrite count_app, NoRestart. zero_counts. no_restart_in_pieces s tb.
  - intros fuel tb w s. pass_cases fuel tb w s; try discriminate.
    + intros _ [X|X]; congruence.
    + intros _ _ X. contradiction.
    + reflexivity.
Qed.

Lemma count_prefix_zero (p : event -> bool) (l pre post : list event)
  (e : event) :
  l = pre ++ e :: post -> count p l = 0 -> count p pre = 0.
Proof. intros ->. rewrite count_app. lia. Qed.

Lemma link_events_facts (tb : tb_replies) :
  count protocol_event (link_events tb) = 0 /\
  count is_status (link_events tb) = 0 /\
  (connected_reply tb = true \/ connect_reply tb = true ->
   server_link (link_events tb) = Some true).
Proof.
  unfold link_events.
  destruct (connected_reply tb), (connect_reply tb); cbn;
    repeat split; intros [X|X]; congruence.
Qed.

Lemma tail_events_facts (s : State) (tb : tb_replies) (td : list event) :
  Forall (fun e => callback_event e = true) td ->
  count is_status (report_events s tb ++ request_events s tb ++
                   blink_events ++ EvTbLoop :: td) = 0 /\
  count is_link (report_events s tb ++ request_events s tb ++
                 blink_events ++ EvTbLoop :: td) = 0.
Proof.
  intros C. change (EvTbLoop :: td) with ([EvTbLoop] ++ td).
  rewrite !count_app. zero_counts.
  unfold report_events, request_events.
  destruct (currentFWSent s), (updateRequestSent s), (send_info_reply tb);
    now cbn.
Qed.

(** The gate in front of the protocol actions, the early return of line 80
    and the wait for the access point. *)
Lemma protocol_gate_facts
  (fuel : nat) (tb : tb_replies) (w : WiFiOracle) (s : State) :
  (forall pre e post,
     events (loop fuel tb w s) = pre ++ e :: post ->
     protocol_event e = true ->
     last_status pre = Some WL_CONNECTED /\ server_link pre = Some true) /\
  (connected_reply tb = false -> connect_reply tb = false ->
   count protocol_event (events (loop fuel tb w s)) = 0 /\
   same_flags s (final (loop fuel tb w s)) /\
   rebooted (loop fuel tb w s) = false /\
   (forall x s' t, loop fuel tb w s = Done x s' t -> x = Return_line_80) /\
   (forall d, first_up w (polls s) d -> d <= fuel ->
      returned (loop fuel tb w s) = true)) /\
  (spinning (loop fuel tb w s) = true ->
   count protocol_event (events (loop fuel tb w s)) = 0 /\
   same_flags s (final (loop fuel tb w s))).
Proof.
  destruct (link_events_facts tb) as (LP & LS & LL).
  assert (W0 : forall t, Forall (fun e => wifi_event e = true) t ->
                         count protocol_event t = 0 /\ count is_link t = 0).
  { intros t Ht. split; zero_counts; reflexivity. }
  split; [|split].
  - intros pre e post.
    pass_cases fuel tb w s; intros E P.
    + destruct (W0 _ Wifi) as [Z _].
      pose proof (count_zero_not_in _ _ Z e) as X.
      rewrite X in P; [discriminate|]. rewrite E. apply in_elt.
    + assert (Z : count protocol_event (t1 ++ link_events tb) = 0).
      { rewrite count_app, LP. destruct (W0 _ Wifi) as [-> _]. reflexivity. }
      pose proof (count_zero_not_in _ _ Z e) as X.
      rewrite X in P; [discriminate|]. rewrite E. apply in_elt.
    + destruct (tail_events_facts s tb td Cbs) as [TS TL].
      apply (split_after_prefix protocol_event) in E as (pre' & -> & E);
        [|rewrite count_app, LP; now destruct (W0 _ Wifi) as [-> _]|exact P].
      rewrite !last_status_app, !server_link_app.
      rewrite (last_status_none pre')
        by exact (count_prefix_zero _ _ _ _ _ E TS).
      rewrite (server_link_none pre')
        by exact (count_prefix_zero _ _ _ _ _ E TL).
      rewrite (last_status_none _ LS), (LL Link). now split.
    + destruct (tail_events_facts s tb td Cbs) as [TS TL].
      apply (split_after_prefix protocol_event) in E as (pre' & -> & E);
        [|rewrite count_app, LP; now destruct (W0 _ Wifi) as [-> _]|exact P].
      rewrite !last_status_app, !server_link_app.
      rewrite (last_status_none pre')
        by exact (count_prefix_zero _ _ _ _ _ E TS).
      rewrite (server_link_none pre')
        by exact (count_prefix_zero _ _ _ _ _ E TL).
      rewrite (last_status_none _ LS), (LL Link). now split.
  - intros C1 C2.
    assert (Ret : forall d, first_up w (polls s) d -> d <= fuel ->
                            spinning (loop fuel tb w s) = false).
    { intros d Hd Hf.
      destruct (reconnect_done d fuel w s Hd Hf) as (t & E & _).
      pass_cases fuel tb w s; congruence. }
    pass_cases fuel tb w s.
    + rewrite Pass in Ret.
      destruct (W0 _ Wifi) as [-> _]. repeat split; try apply Flags.
      * intros; discriminate.
      * intros d Hd Hf. now specialize (Ret d Hd Hf).
    + rewrite count_app, LP. destruct (W0 _ Wifi) as [-> _].
      repeat split; try apply Flags. intros x s' t X. congruence.
    + destruct Link; congruence.
    + destruct Link; congruence.
  - pass_cases fuel tb w s; try discriminate. intros _.
    destruct (W0 _ Wifi) as [-> _]. repeat split; apply Flags.
Qed.

(** *** Several passes *)

Lemma loops_cons (fuel : nat) (tb : tb_replies) (rest : list tb_replies)
  (w : WiFiOracle) (s : State) :
  loops fuel (tb :: rest) w s =
  match loop fuel tb w s with
  | Done _ s1 t1 => prepend t1 (loops fuel rest w s1)
  | Reboot s1 t1 => Reboot s1 t1
  | Spinning s1 t1 => Spinning s1 t1
  end.
Proof. reflexivity. Qed.


Lemma setup_cases (fuel : nat) (w : WiFiOracle) (s : State) :
  exists s' t,
    same_flags s s' /\ Forall (fun e => boot_event e = true) t /\
    (setup fuel w s = Done tt s' t \/ setup fuel w s = Spinning s' t).
Proof.
  assert (B : forall t, Forall (fun e => wifi_event e = true) t ->
                        Forall (fun e => boot_event e = true) t).
  { intros t. apply Forall_impl. now intros []. }
  unfold setup, initializeWiFi, bind, Serial_begin, Serial_println,
    WiFi_begin, delay, pinMode, emit. cbn.
  destruct (wait_connected_cases fuel w s)
    as [(s' & t & E & F & W & _)|(s' & t & E & F & W)];
    rewrite E; cbn; exists s'; eexists; (split; [exact F|]).
  - split; [|left; reflexivity]. apply B in W. all_of_class.
  - split; [|right; reflexivity]. apply B in W. all_of_class.
Qed.


(** *** Restarts *)




(** *** Summary of one pass

    Only lines 84-91 touch the flags or make a guarded call; [reached]
    says whether the pass got that far. *)

Lemma count_no_guarded_call (p : event -> bool) (t : list event) :
  (forall e, p e = true -> guarded_call e = true) ->
  no_guarded_call t -> count p t = 0.
Proof.
  intros Hp Ht. unfold count.
  induction Ht as [|e t He _ IH]; [reflexivity|]. simpl.
  destruct (p e) eqn:P; [|exact IH].
  rewrite (Hp e P) in He. discriminate He.
Qed.

Lemma wifi_no_guarded_call (t : list event) :
  Forall (fun e => wifi_event e = true) t -> no_guarded_call t.
Proof. apply Forall_impl. now intros []. Qed.

Lemma callbacks_no_guarded_call (t : list event) :
  Forall (fun e => callback_event e = true) t -> no_guarded_call t.
Proof. apply Forall_impl. now intros []. Qed.

Lemma boot_no_guarded_call (t : list event) :
  Forall (fun e => boot_event e = true) t -> no_guarded_call t.
Proof. apply Forall_impl. now intros []. Qed.

Lemma link_no_guarded_call (tb : tb_replies) :
  no_guarded_call (link_events tb).
Proof.
  unfold link_events, no_guarded_call.
  destruct (connected_reply tb), (connect_reply tb); repeat constructor.
Qed.

Lemma pass_summary (fuel : nat) (tb : tb_replies) (w : WiFiOracle)
  (s : State) :
  exists (reached : bool) (pre post : list event),
    events (loop fuel tb w s) =
    pre ++ (if reached then report_events s tb ++ request_events s tb
            else []) ++ post /\
    no_guarded_call pre /\ no_guarded_call post /\
    currentFWSent (final (loop fuel tb w s)) =
    (if reached
     then currentFWSent s || (send_info_reply tb && send_state_reply tb)
     else currentFWSent s) /\
    updateRequestSent (final (loop fuel tb w s)) =
    (if reached then updateRequestSent s || subscribe_reply tb
     else updateRequestSent s) /\
    (reached = true <->
     spinning (loop fuel tb w s) = false /\
     (connected_reply tb = true \/ connect_reply tb = true)).
Proof.
  pose proof (link_no_guarded_call tb) as LQ.
  pass_cases fuel tb w s; destruct Flags as [F1 F2].
  - exists false, t1, []. rewrite app_nil_r.
    repeat split; try easy; try constructor.
    now apply wifi_no_guarded_call.
  - exists false, (t1 ++ link_events tb), []. rewrite app_nil_r.
    repeat split; try easy; try constructor.
    + apply Forall_app. split; [now apply wifi_no_guarded_call|exact LQ].
    + intros [_ [X|X]]; congruence.
  - exists true, (t1 ++ link_events tb), (blink_events ++ EvTbLoop :: td).
    unfold tail_state. cbn [currentFWSent updateRequestSent].
    rewrite F1, F2, <- !app_assoc. repeat split; try easy.
    + apply Forall_app. split; [now apply wifi_no_guarded_call|exact LQ].
    + apply Forall_app. split; [repeat constructor|].
      constructor; [reflexivity|now apply callbacks_no_guarded_call].
  - exists true, (t1 ++ link_events tb), (blink_events ++ EvTbLoop :: td).
    unfold tail_state. cbn [currentFWSent updateRequestSent].
    rewrite F1, F2, <- !app_assoc. repeat split; try easy.
    + apply Forall_app. split; [now apply wifi_no_guarded_call|exact LQ].
    + apply Forall_app. split; [repeat constructor|].
      constructor; [reflexivity|now apply callbacks_no_guarded_call].
Qed.

Ltac guarded_counts :=
  repeat match goal with
  | H : no_guarded_call ?t |- context [count ?p ?t] =>
      rewrite (count_no_guarded_call p t) by
        (assumption || (intros [] X; (discriminate X || reflexivity)))
  end.

Lemma pass_flag_kept (fuel : nat) (tb : tb_replies) (w : WiFiOracle)
  (s : State) :
  currentFWSent s = true ->
  currentFWSent (final (loop fuel tb w s)) = true /\
  count is_send_info (events (loop fuel tb w s)) = 0 /\
  count is_send_state (events (loop fuel tb w s)) = 0.
Proof.
  intros H.
  destruct (pass_summary fuel tb w s)
    as (reached & pre & post & -> & Qpre & Qpost & -> & _ & _).
  unfold report_events, request_events. rewrite H, !count_app.
  guarded_counts.
  destruct reached, (updateRequestSent s); now repeat split.
Qed.

Lemma pass_request_kept (fuel : nat) (tb : tb_replies) (w : WiFiOracle)
  (s : State) :
  updateRequestSent s = true ->
  updateRequestSent (final (loop fuel tb w s)) = true /\
  count is_subscribe (events (loop fuel tb w s)) = 0.
Proof.
  intros H.
  destruct (pass_summary fuel tb w s)
    as (reached & pre & post & -> & Qpre & Qpost & _ & -> & _).
  unfold report_events, request_events. rewrite H, !count_app.
  guarded_counts.
  destruct reached, (currentFWSent s), (send_info_reply tb);
    now repeat split.
Qed.



Lemma loops_flag_kept (fuel : nat) (tbs : list tb_replies) (w : WiFiOracle) :
  forall s,
    currentFWSent s = true ->
    currentFWSent (final (loops fuel tbs w s)) = true /\
    count is_send_info (events (loops fuel tbs w s)) = 0 /\
    count is_send_state (events (loops fuel tbs w s)) = 0.
Proof.
  induction tbs as [|tb tbs IH]; intros s H; [now repeat split|].
  rewrite loops_cons.
  destruct (pass_flag_kept fuel tb w s H) as (F & C1 & C2).
  destruct (loop fuel tb w s) as [x s1 t1|s1 t1|s1 t1];
    cbn [final events] in *; try (now repeat split).
  destruct (IH s1 F) as (F' & C1' & C2').
  rewrite final_prepend, events_prepend, !count_app.
  repeat split; (assumption || lia).
Qed.



(** *** The firmware report of lines 84-86 *)

Lemma pass_report_counts (fuel : nat) (tb : tb_replies) (w : WiFiOracle)
  (s : State) :
  count is_send_info (events (loop fuel tb w s)) <= 1 /\
  count is_send_state (events (loop fuel tb w s)) <= 1 /\
  count is_state_success (events (loop fuel tb w s)) =
  (if currentFWSent s then 0
   else if currentFWSent (final (loop fuel tb w s)) then 1 else 0).
Proof.
  destruct (pass_summary fuel tb w s)
    as (reached & pre & post & -> & Qpre & Qpost & -> & _ & _).
  unfold report_events, request_events. rewrite !count_app.
  guarded_counts.
  destruct reached, (currentFWSent s), (updateRequestSent s),
    (send_info_reply tb), (send_state_reply tb); cbn; repeat split; lia.
Qed.

Lemma pass_report_attempt (fuel : nat) (tb : tb_replies) (w : WiFiOracle)
  (s : State) :
  currentFWSent s = false ->
  spinning (loop fuel tb w s) = false ->
  connected_reply tb = true \/ connect_reply tb = true ->
  In (EvFirmwareSendInfo CURRENT_FIRMWARE_TITLE CURRENT_FIRMWARE_VERSION
                         (send_info_reply tb))
     (events (loop fuel tb w s)) /\
  count is_send_info (events (loop fuel tb w s)) = 1 /\
  count is_send_state (events (loop fuel tb w s)) =
  (if send_info_reply tb then 1 else 0) /\
  (send_info_reply tb = true ->
   In (EvFirmwareSendState FW_STATE_UPDATED (send_state_reply tb))
      (events (loop fuel tb w s))) /\
  currentFWSent (final (loop fuel tb w s)) =
  send_info_reply tb && send_state_reply tb.
Proof.
  intros H Sp Li.
  destruct (pass_summary fuel tb w s)
    as (reached & pre & post & -> & Qpre & Qpost & -> & _ & R).
  destruct reached; [|pose proof (proj2 R (conj Sp Li)); discriminate].
  unfold report_events, request_events. rewrite H, !count_app, !in_app_iff.
  guarded_counts.
  destruct (updateRequestSent s), (send_info_reply tb); cbn;
    repeat split; auto; (discriminate || tauto).
Qed.

Lemma loops_state_success (fuel : nat) (tbs : list tb_replies)
  (w : WiFiOracle) :
  forall s,
    count is_state_success (events (loops fuel tbs w s))
    <= (if currentFWSent s then 0 else 1).
Proof.
  induction tbs as [|tb tbs IH]; intros s.
  - cbn. destruct (currentFWSent s); lia.
  - rewrite loops_cons.
    destruct (pass_report_counts fuel tb w s) as (_ & _ & C).
    pose proof (pass_flag_kept fuel tb w s) as K.
    destruct (loop fuel tb w s) as [x s1 t1|s1 t1|s1 t1];
      cbn [final events] in *;
      try (rewrite C; destruct (currentFWSent s), (currentFWSent s1); lia).
    specialize (IH s1). rewrite events_prepend, count_app, C.
    destruct (currentFWSent s) eqn:F.
    + destruct K as (K1 & _); [reflexivity|]. rewrite K1 in IH. lia.
    + destruct (currentFWSent s1); lia.
Qed.

(** C2, as the code has it: [Firmware_Send_Info] and
    [Firmware_Send_State("UPDATED")] are guarded together by the one flag
    [currentFWSent].  A pass makes each call at most once.  A pass that gets
    past the connection checks with the flag unset calls
    [Firmware_Send_Info] once, calls [Firmware_Send_State] only if that
    succeeded, and sets the flag exactly when both succeeded; otherwise the
    flag stays unset, so that the next such pass starts again with
    [Firmware_Send_Info].  Once the flag is set neither call is made again,
    and in a whole session [Firmware_Send_State] succeeds at most once. *)
Theorem firmware_report_guarded_by_one_flag :
  (forall fuel tb (w : WiFiOracle) s,
     count is_send_info (events (loop fuel tb w s)) <= 1 /\
     count is_send_state (events (loop fuel tb w s)) <= 1 /\
     (currentFWSent s = false ->
      spinning (loop fuel tb w s) = false ->
      connected_reply tb = true \/ connect_reply tb = true ->
      In (EvFirmwareSendInfo CURRENT_FIRMWARE_TITLE CURRENT_FIRMWARE_VERSION
                             (send_info_reply tb))
         (events (loop fuel tb w s)) /\
      count is_send_info (events (loop fuel tb w s)) = 1 /\
      count is_send_state (events (loop fuel tb w s)) =
      (if send_info_reply tb then 1 else 0) /\
      (send_info_reply tb = true ->
       In (EvFirmwareSendState FW_STATE_UPDATED (send_state_reply tb))
          (events (loop fuel tb w s))) /\
      currentFWSent (final (loop fuel tb w s)) =
      send_info_reply tb && send_state_reply tb)) /\
  (forall fuel tbs (w : WiFiOracle) s,
     currentFWSent s = true ->
     currentFWSent (final (loops fuel tbs w s)) = true /\
     count is_send_info (events (loops fuel tbs w s)) = 0 /\
     count is_send_state (events (loops fuel tbs w s)) = 0) /\
  (forall fuel tbs (w : WiFiOracle),
     count is_state_success
           (events (arduino_main fuel tbs w initial_state)) <= 1).
Proof.
  split; [|split].
  - intros fuel tb w s.
    destruct (pass_report_counts fuel tb w s) as (C1 & C2 & _).
    split; [exact C1|]. split; [exact C2|]. apply pass_report_attempt.
  - intros fuel tbs w s. apply loops_flag_kept.
  - intros fuel tbs w. unfold arduino_main, bind.
    destruct (setup_cases fuel w initial_state)
      as (s' & t & [F _] & B & [E|E]); rewrite E; cbn [events].
    + pose proof (loops_state_success fuel tbs w s') as L.
      rewrite F in L. cbn in L.
      rewrite events_prepend, count_app.
      rewrite (count_no_guarded_call is_state_success t);
        [lia| |now apply boot_no_guarded_call].
      intros [] X; (discriminate X || reflexivity).
    + rewrite (count_no_guarded_call is_state_success t);
        [lia| |now apply boot_no_guarded_call].
      intros [] X; (discriminate X || reflexivity).
Qed.

(** *** Order of the two report calls *)

Lemma state_after_info_weaken (b : bool) (t : list event) :
  state_after_info false t = true -> state_after_info b t = true.
Proof.
  destruct t as [|e t]; [reflexivity|]. cbn.
  destruct (is_send_state e); [discriminate|]. now destruct b.
Qed.

Lemma state_after_info_app (a c : list event) :
  forall b,
    state_after_info b a = true -> state_after_info false c = true ->
    state_after_info b (a ++ c) = true.
Proof.
  induction a as [|e a IH]; intros b Ha Hc.
  - now apply state_after_info_weaken.
  - cbn in *. apply andb_true_iff in Ha as [H1 H2].
    rewrite H1. cbn. now apply IH.
Qed.

Lemma state_after_info_quiet (t : list event) :
  no_guarded_call t -> forall b, state_after_info b t = true.
Proof.
  induction 1 as [|e t He _ IH]; intros b; [reflexivity|]. cbn.
  unfold guarded_call in He.
  destruct (is_send_state e); [now destruct (is_send_info e)|]. apply IH.
Qed.

Lemma state_after_info_sound (pre : list event) :
  forall b t st r post,
    state_after_info b t = true ->
    t = pre ++ EvFirmwareSendState st r :: post ->
    st = FW_STATE_UPDATED /\
    ((pre = [] /\ b = true) \/
     exists pre',
       pre = pre' ++ [EvFirmwareSendInfo CURRENT_FIRMWARE_TITLE
                                         CURRENT_FIRMWARE_VERSION true]).
Proof.
  induction pre as [|x pre IH]; intros b t st r post H ->.
  - cbn in H. apply andb_true_iff in H as [H _].
    apply andb_true_iff in H as [-> H]. apply String.eqb_eq in H.
    split; [exact H|]. now left.
  - cbn [app state_after_info] in H. apply andb_true_iff in H as [_ H].
    destruct (IH _ _ st r post H eq_refl) as (E & [(-> & X)|(pre' & ->)]).
    + split; [exact E|]. right. exists [].
      destruct x as [| | | | | | | | | | | |ti v [|]| | | |]; try discriminate X.
      cbn in X. apply andb_true_iff in X as [X1 X2].
      apply String.eqb_eq in X1, X2. now subst.
    + split; [exact E|]. right. now exists (x :: pre').
Qed.

Lemma pass_state_after_info (fuel : nat) (tb : tb_replies) (w : WiFiOracle)
  (s : State) :
  state_after_info false (events (loop fuel tb w s)) = true.
Proof.
  destruct (pass_summary fuel tb w s)
    as (reached & pre & post & -> & Qpre & Qpost & _).
  apply state_after_info_app; [now apply state_after_info_quiet|].
  apply state_after_info_app; [|now apply state_after_info_quiet].
  unfold report_events, request_events.
  now destruct reached, (currentFWSent s), (updateRequestSent s),
    (send_info_reply tb).
Qed.

Lemma loops_state_after_info (fuel : nat) (tbs : list tb_replies)
  (w : WiFiOracle) :
  forall s, state_after_info false (events (loops fuel tbs w s)) = true.
Proof.
  induction tbs as [|tb tbs IH]; intros s; [reflexivity|].
  rewrite loops_cons. pose proof (pass_state_after_info fuel tb w s) as P.
  destruct (loop fuel tb w s) as [x s1 t1|s1 t1|s1 t1]; cbn [events] in *;
    try exact P.
  rewrite events_prepend. now apply state_after_info_app.
Qed.

(** C3: in a session, every [Firmware_Send_State] call carries "UPDATED"
    and comes directly after a [Firmware_Send_Info] call, made with the
    running title and version, that returned success. *)
Theorem send_state_follows_successful_send_info
  (fuel : nat) (tbs : list tb_replies) (w : WiFiOracle)
  (pre post : list event) (st : string) (r : bool) :
  events (arduino_main fuel tbs w initial_state) =
  pre ++ EvFirmwareSendState st r :: post ->
  st = FW_STATE_UPDATED /\
  exists pre',
    pre = pre' ++ [EvFirmwareSendInfo CURRENT_FIRMWARE_TITLE
                                      CURRENT_FIRMWARE_VERSION true].
Proof.
  intros E.
  assert (H : state_after_info false
                (events (arduino_main fuel tbs w initial_state)) = true).
  { unfold arduino_main, bind.
    destruct (setup_cases fuel w initial_state)
      as (s' & t & _ & B & [X|X]); rewrite X; cbn [events].
    - rewrite events_prepend. apply state_after_info_app.
      + now apply state_after_info_quiet, boot_no_guarded_call.
      + apply loops_state_after_info.
    - now apply state_after_info_quiet, boot_no_guarded_call. }
  destruct (state_after_info_sound pre _ _ st r post H E)
    as (S & [(_ & X)|X]); [discriminate X|].
  now split.
Qed.

(** *** The subscription *)

Lemma quiet_configured (t : list event) :
  no_guarded_call t -> Forall configured_subscription t.
Proof. apply Forall_impl. intros []; cbn; (trivial || discriminate). Qed.

Lemma pass_configured (fuel : nat) (tb : tb_replies) (w : WiFiOracle)
  (s : State) :
  Forall configured_subscription (events (loop fuel tb w s)).
Proof.
  destruct (pass_summary fuel tb w s)
    as (reached & pre & post & -> & Qpre & Qpost & _).
  apply Forall_app. split; [now apply quiet_configured|].
  apply Forall_app. split; [|now apply quiet_configured].
  unfold report_events, request_events.
  destruct reached, (currentFWSent s), (updateRequestSent s),
    (send_info_reply tb); repeat constructor.
Qed.

Lemma loops_configured (fuel : nat) (tbs : list tb_replies) (w : WiFiOracle) :
  forall s, Forall configured_subscription (events (loops fuel tbs w s)).
Proof.
  induction tbs as [|tb tbs IH]; intros s; [constructor|].
  rewrite loops_cons. pose proof (pass_configured fuel tb w s) as P.
  destruct (loop fuel tb w s) as [x s1 t1|s1 t1|s1 t1]; cbn [events] in *;
    try exact P.
  rewrite events_prepend. apply Forall_app. now split.
Qed.

(** C7: the callback object handed to the update subscription holds the
    running title "ESPino32", the running version "1.0.0", a retry ceiling
    of 5 that fits eight bits, and a packet size of 4096 bytes; every
    [Subscribe_Firmware_Update] call of a session passes exactly that
    object. *)
Theorem subscription_uses_configured_values :
  ota_title callback = "ESPino32" /\
  ota_version callback = "1.0.0" /\
  ota_retries callback = 5%Z /\
  (0 <= ota_retries callback < 2 ^ 8)%Z /\
  ota_packet_size callback = 4096%Z /\
  ota_progress callback = addr_progressCallback /\
  ota_updated callback = addr_updatedCallback /\
  (forall fuel tbs (w : WiFiOracle) s cb r,
     In (EvSubscribeFirmwareUpdate cb r)
        (events (arduino_main fuel tbs w s)) ->
     cb = callback).
Proof.
  repeat (split; [reflexivity || (cbn; lia)|]).
  intros fuel tbs w s cb r H.
  assert (A : Forall configured_subscription
                     (events (arduino_main fuel tbs w s))).
  { unfold arduino_main, bind.
    destruct (setup_cases fuel w s) as (s' & t & _ & B & [X|X]);
      rewrite X; cbn [events].
    - rewrite events_prepend. apply Forall_app. split.
      + now apply quiet_configured, boot_no_guarded_call.
      + apply loops_configured.
    - now apply quiet_configured, boot_no_guarded_call. }
  rewrite Forall_forall in A. exact (A _ H).
Qed.

(** ** Further properties of the sketch *)

Lemma count_cons (p : event -> bool) (e : event) (t : list event) :
  count p (e :: t) = (if p e then 1 else 0) + count p t.
Proof. unfold count. cbn. now destruct (p e). Qed.

Lemma returned_prepend {A} (t : list event) (o : outcome A) :
  returned (prepend t o) = returned o.
Proof. now destruct o. Qed.

Lemma rebooted_prepend {A} (t : list event) (o : outcome A) :
  rebooted (prepend t o) = rebooted o.
Proof. now destruct o. Qed.

Lemma spinning_prepend {A} (t : list event) (o : outcome A) :
  spinning (prepend t o) = spinning o.
Proof. now destruct o. Qed.

(** *** Unfolding the WiFi bring-up code *)

Lemma wait_connected_step (fuel : nat) (w : WiFiOracle) (s : State) :
  wait_connected (S fuel) w s =
  if wl_status_eq_dec (w (polls s)) WL_CONNECTED
  then Done tt (polled s) [EvWiFiStatus (w (polls s))]
  else prepend [EvWiFiStatus (w (polls s)); EvDelay 500; EvSerialPrint "."]
               (wait_connected fuel w (polled s)).
Proof.
  cbn [wait_connected]. unfold bind, WiFi_status. cbn. fold (polled s).
  destruct (wl_status_eq_dec (w (polls s)) WL_CONNECTED); [reflexivity|].
  unfold delay, Serial_print, emit. cbn.
  now destruct (wait_connected fuel w (polled s)).
Qed.

Lemma initializeWiFi_unfold (fuel : nat) (w : WiFiOracle) (s : State) :
  initializeWiFi fuel w s =
  match wait_connected fuel w s with
  | Done _ s' t =>
      Done tt s'
           (EvSerialPrintln "Connecting to AP ..."
            :: EvWiFiBegin WIFI_SSID WIFI_PASSWORD
            :: t ++ [EvSerialPrintln "Connected to AP"])
  | Reboot s' t =>
      Reboot s' (EvSerialPrintln "Connecting to AP ..."
                 :: EvWiFiBegin WIFI_SSID WIFI_PASSWORD :: t)
  | Spinning s' t =>
      Spinning s' (EvSerialPrintln "Connecting to AP ..."
                   :: EvWiFiBegin WIFI_SSID WIFI_PASSWORD :: t)
  end.
Proof.
  unfold initializeWiFi, bind, Serial_println, WiFi_begin, emit. cbn.
  now destruct (wait_connected fuel w s).
Qed.

Lemma reconnect_unfold (fuel : nat) (w : WiFiOracle) (s : State) :
  reconnect fuel w s =
  if wl_status_eq_dec (w (polls s)) WL_CONNECTED
  then Done true (polled s) [EvWiFiStatus (w (polls s))]
  else match initializeWiFi fuel w (polled s) with
       | Done _ s' t => Done true s' (EvWiFiStatus (w (polls s)) :: t)
       | Reboot s' t => Reboot s' (EvWiFiStatus (w (polls s)) :: t)
       | Spinning s' t => Spinning s' (EvWiFiStatus (w (polls s)) :: t)
       end.
Proof.
  unfold reconnect, bind, WiFi_status. cbn -[initializeWiFi].
  fold (polled s).
  destruct (wl_status_eq_dec (w (polls s)) WL_CONNECTED); [reflexivity|].
  unfold ret. destruct (initializeWiFi fuel w (polled s)); cbn;
    now rewrite ?app_nil_r.
Qed.

Lemma setup_unfold (fuel : nat) (w : WiFiOracle) (s : State) :
  setup fuel w s =
  match initializeWiFi fuel w s with
  | Done _ s' t =>
      Done tt s'
           (EvSerialBegin SERIAL_DEBUG_BAUD :: EvDelay 1000
            :: t ++ [EvPinMode LED_BUILTIN OUTPUT])
  | Reboot s' t =>
      Reboot s' (EvSerialBegin SERIAL_DEBUG_BAUD :: EvDelay 1000 :: t)
  | Spinning s' t =>
      Spinning s' (EvSerialBegin SERIAL_DEBUG_BAUD :: EvDelay 1000 :: t)
  end.
Proof.
  unfold setup, bind, Serial_begin, delay, pinMode, emit.
  cbn -[initializeWiFi]. now destruct (initializeWiFi fuel w s).
Qed.

(** *** Accounting of the wait loop *)

Lemma wait_connected_accounting (fuel : nat) (w : WiFiOracle) :
  forall s,
    Forall (fun e => wait_event e = true)
           (events (wait_connected fuel w s)) /\
    time_delayed (events (wait_connected fuel w s)) =
    (500 * Z.of_nat (count is_dot (events (wait_connected fuel w s))))%Z /\
    count is_status (events (wait_connected fuel w s)) =
    count is_dot (events (wait_connected fuel w s)) +
    (if returned (wait_connected fuel w s) then 1 else 0) /\
    polls (final (wait_connected fuel w s)) =
    polls s + count is_status (events (wait_connected fuel w s)) /\
    rebooted (wait_connected fuel w s) = false /\
    same_flags s (final (wait_connected fuel w s)).
Proof.
  induction fuel as [|fuel IH]; intros s.
  - cbn. split; [constructor|]. split; [reflexivity|].
    split; [reflexivity|]. split; [lia|]. now repeat split.
  - rewrite wait_connected_step.
    destruct (wl_status_eq_dec (w (polls s)) WL_CONNECTED) as [U|D].
    + cbn [events final returned rebooted polled polls].
      rewrite !count_cons. cbn.
      split; [constructor; [reflexivity|constructor]|].
      split; [reflexivity|]. split; [reflexivity|].
      split; [lia|]. now repeat split.
    + destruct (IH (polled s)) as (F & T & C & P & R & G).
      rewrite events_prepend, final_prepend, returned_prepend,
        rebooted_prepend.
      cbn [app]. rewrite !count_cons. cbn [time_delayed].
      change (is_dot (EvSerialPrint ".")) with true.
      cbn [is_dot is_status].
      split; [repeat (constructor; [reflexivity|]); exact F|].
      split; [rewrite T; lia|]. split; [lia|].
      split; [rewrite P; cbn [polled polls]; lia|].
      split; [exact R|exact G].
Qed.

Lemma count_nil (p : event -> bool) : count p [] = 0.
Proof. reflexivity. Qed.

Ltac explicit_counts :=
  rewrite ?count_cons, ?count_nil;
  cbn [is_dot is_status is_wifi_begin is_tb_loop is_connect
       is_connected_query is_subscribe is_subscribe_success is_pin_mode
       tb_call is_restart is_send_info is_send_state time_delayed].

Ltac count_by_class :=
  repeat match goal with
  | H : Forall (fun e => ?c e = true) ?t |- context [count ?p ?t] =>
      rewrite (count_class c p t) by
        (assumption || (intros [] X; (discriminate X || reflexivity)))
  end.

(** What one call of [initializeWiFi] does: the announcement, one
    [WiFi.begin], the events [tw] of the wait loop and, if the loop ends,
    the confirmation. *)
Lemma initializeWiFi_shape (fuel : nat) (w : WiFiOracle) (s : State) :
  exists s' tw,
    Forall (fun e => wait_event e = true) tw /\
    time_delayed tw = (500 * Z.of_nat (count is_dot tw))%Z /\
    polls s' = polls s + count is_status tw /\
    same_flags s s' /\
    ((initializeWiFi fuel w s =
      Done tt s' (EvSerialPrintln "Connecting to AP ..."
                  :: EvWiFiBegin WIFI_SSID WIFI_PASSWORD
                  :: tw ++ [EvSerialPrintln "Connected to AP"]) /\
      count is_status tw = count is_dot tw + 1 /\
      last_status tw = Some WL_CONNECTED) \/
     (initializeWiFi fuel w s =
      Spinning s' (EvSerialPrintln "Connecting to AP ..."
                   :: EvWiFiBegin WIFI_SSID WIFI_PASSWORD :: tw) /\
      count is_status tw = count is_dot tw)).
Proof.
  destruct (wait_connected_accounting fuel w s) as (F & T & C & P & R & G).
  rewrite initializeWiFi_unfold.
  destruct (wait_connected_cases fuel w s)
    as [(s' & t & E & _ & _ & L)|(s' & t & E & _)];
    rewrite E in *; cbn [events final returned] in *;
    exists s', t; repeat (split; [assumption|]).
  - left. split; [reflexivity|]. split; [lia|exact L].
  - right. split; [reflexivity|lia].
Qed.

Lemma initializeWiFi_ends (d fuel : nat) (w : WiFiOracle) (s : State) :
  first_up w (polls s) d -> d < fuel ->
  returned (initializeWiFi fuel w s) = true /\
  polls (final (initializeWiFi fuel w s)) = polls s + d + 1.
Proof.
  intros U Hf. rewrite initializeWiFi_unfold.
  destruct (wait_connected_done d fuel w s U Hf) as (t & E & _).
  rewrite E. now split.
Qed.

Lemma initializeWiFi_waits (fuel : nat) (w : WiFiOracle) (s : State) :
  down_for w (polls s) fuel -> spinning (initializeWiFi fuel w s) = true.
Proof.
  intros D. rewrite initializeWiFi_unfold.
  destruct (wait_connected_spin fuel w s D) as (s' & t & E). now rewrite E.
Qed.


(** X2: [setup] opens the serial port at 115200 baud, waits one second and
    brings up WiFi with one [WiFi.begin]; it configures the LED pin only
    once a status poll has answered [WL_CONNECTED], as its last action.  It
    makes no ThingsBoard call and leaves both flags alone.  When the
    access point answers at poll [d] the call returns after [d + 1] polls
    and [1000 + 500 * d] ms of delay; while the access point does not
    answer it does not return. *)
Theorem setup_configures_the_led_after_wifi
  (fuel : nat) (w : WiFiOracle) (s : State) :
  rebooted (setup fuel w s) = false /\
  same_flags s (final (setup fuel w s)) /\
  count tb_call (events (setup fuel w s)) = 0 /\
  count is_wifi_begin (events (setup fuel w s)) = 1 /\
  (exists t,
     events (setup fuel w s) =
     EvSerialBegin SERIAL_DEBUG_BAUD :: EvDelay 1000
     :: EvSerialPrintln "Connecting to AP ..."
     :: EvWiFiBegin WIFI_SSID WIFI_PASSWORD :: t) /\
  time_delayed (events (setup fuel w s)) =
  (1000 + 500 * Z.of_nat (count is_dot (events (setup fuel w s))))%Z /\
  count is_pin_mode (events (setup fuel w s)) =
  (if returned (setup fuel w s) then 1 else 0) /\
  (returned (setup fuel w s) = true ->
   last_status (events (setup fuel w s)) = Some WL_CONNECTED /\
   exists t,
     events (setup fuel w s) =
     t ++ [EvSerialPrintln "Connected to AP";
           EvPinMode LED_BUILTIN OUTPUT]) /\
  (forall d, first_up w (polls s) d -> d < fuel ->
     returned (setup fuel w s) = true /\
     polls (final (setup fuel w s)) = polls s + d + 1 /\
     time_delayed (events (setup fuel w s))
     = (1000 + 500 * Z.of_nat d)%Z) /\
  (down_for w (polls s) fuel -> spinning (setup fuel w s) = true).
Proof.
  assert (Ends := fun d => initializeWiFi_ends d fuel w s).
  assert (Waits := initializeWiFi_waits fuel w s).
  rewrite setup_unfold.
  destruct (initializeWiFi_shape fuel w s)
    as (s' & tw & F & T & P & G & [(E & C & L)|(E & C)]);
    rewrite E in *; cbn [events final returned rebooted spinning] in *.
  - change (EvSerialBegin SERIAL_DEBUG_BAUD :: EvDelay 1000
            :: (EvSerialPrintln "Connecting to AP ..."
                :: EvWiFiBegin WIFI_SSID WIFI_PASSWORD
                :: tw ++ [EvSerialPrintln "Connected to AP"]) ++
               [EvPinMode LED_BUILTIN OUTPUT])
      with ([EvSerialBegin SERIAL_DEBUG_BAUD; EvDelay 1000;
             EvSerialPrintln "Connecting to AP ...";
             EvWiFiBegin WIFI_SSID WIFI_PASSWORD] ++
            (tw ++ [EvSerialPrintln "Connected to AP"]) ++
            [EvPinMode LED_BUILTIN OUTPUT]).
    rewrite !count_app, !time_delayed_app, !last_status_app.
    count_by_class. explicit_counts.
    split; [reflexivity|]. split; [exact G|]. split; [reflexivity|].
    split; [reflexivity|]. split; [now eexists|].
    split; [rewrite T; lia|]. split; [reflexivity|].
    split; [|split; [|exact Waits]].
    + intros _. cbn. rewrite L. split; [reflexivity|].
      exists ([EvSerialBegin SERIAL_DEBUG_BAUD; EvDelay 1000;
               EvSerialPrintln "Connecting to AP ...";
               EvWiFiBegin WIFI_SSID WIFI_PASSWORD] ++ tw).
      now rewrite <- !app_assoc.
    + intros d U Hf. destruct (Ends d U Hf) as [_ Pd].
      split; [reflexivity|]. split; [exact Pd|].
      rewrite T. replace (count is_dot tw) with d by lia. lia.
  - change (EvSerialBegin SERIAL_DEBUG_BAUD :: EvDelay 1000
            :: EvSerialPrintln "Connecting to AP ..."
            :: EvWiFiBegin WIFI_SSID WIFI_PASSWORD :: tw)
      with ([EvSerialBegin SERIAL_DEBUG_BAUD; EvDelay 1000;
             EvSerialPrintln "Connecting to AP ...";
             EvWiFiBegin WIFI_SSID WIFI_PASSWORD] ++ tw).
    rewrite !count_app, !time_delayed_app.
    count_by_class. explicit_counts.
    split; [reflexivity|]. split; [exact G|]. split; [reflexivity|].
    split; [reflexivity|]. split; [now eexists|].
    split; [rewrite T; lia|]. split; [reflexivity|].
    split; [discriminate|split; [|exact Waits]].
    intros d U Hf. destruct (Ends d U Hf) as [X _]. discriminate X.
Qed.

(** *** WiFi bring-up inside a pass *)

Lemma reconnect_accounting (fuel : nat) (w : WiFiOracle) (s : State) :
  count is_wifi_begin (events (reconnect fuel w s)) =
  (if wl_status_eq_dec (w (polls s)) WL_CONNECTED then 0 else 1) /\
  (0 <= time_delayed (events (reconnect fuel w s)))%Z /\
  (w (polls s) = WL_CONNECTED ->
   count is_status (events (reconnect fuel w s)) = 1 /\
   returned (reconnect fuel w s) = true) /\
  (forall ssid pass,
     In (EvWiFiBegin ssid pass) (events (reconnect fuel w s)) ->
     ssid = WIFI_SSID /\ pass = WIFI_PASSWORD).
Proof.
  rewrite reconnect_unfold.
  destruct (wl_status_eq_dec (w (polls s)) WL_CONNECTED) as [U|D].
  - cbn [events returned]. explicit_counts.
    split; [reflexivity|]. split; [lia|]. split; [now split|].
    intros ssid pass [X|[]]. discriminate X.
  - destruct (initializeWiFi_shape fuel w (polled s))
      as (s' & tw & F & T & P & G & [(E & C & L)|(E & C)]);
      rewrite E; cbn [events returned];
      rewrite ?app_comm_cons; rewrite ?count_app, ?time_delayed_app;
      explicit_counts; count_by_class;
      (split; [reflexivity|]); (split; [lia|]);
      (split; [contradiction|]); intros ssid pass I;
      rewrite ?in_app_iff in I; cbn [In] in I;
      assert (N := count_zero_not_in is_wifi_begin tw
                     (count_class wait_event is_wifi_begin tw
                        ltac:(intros [] X; (discriminate X || reflexivity))
                        F) (EvWiFiBegin ssid pass));
      repeat match goal with
      | H : _ \/ _ |- _ => destruct H
      | H : False |- _ => destruct H
      | H : _ = EvWiFiBegin _ _ |- _ => inversion H; clear H
      | H : In (EvWiFiBegin _ _) tw |- _ => specialize (N H); discriminate N
      end; now split.
Qed.

Lemma body_pieces (s : State) (tb : tb_replies) :
  Forall (fun e => body_event e = true) (link_events tb) /\
  Forall (fun e => body_event e = true) (report_events s tb) /\
  Forall (fun e => body_event e = true) (request_events s tb) /\
  Forall (fun e => body_event e = true) blink_events.
Proof.
  unfold link_events, report_events, request_events, blink_events.
  destruct (connected_reply tb), (connect_reply tb), (currentFWSent s),
    (updateRequestSent s), (send_info_reply tb);
    repeat split; repeat constructor.
Qed.

(** X3: a pass through [loop] calls [WiFi.begin] exactly when its first
    status poll does not answer [WL_CONNECTED], then exactly once and with
    the configured SSID and password; a pass whose first poll answers
    [WL_CONNECTED] makes no further poll and does not wait. *)
Theorem wifi_is_restarted_only_when_the_first_poll_fails
  (fuel : nat) (tb : tb_replies) (w : WiFiOracle) (s : State) :
  count is_wifi_begin (events (loop fuel tb w s)) =
  (if wl_status_eq_dec (w (polls s)) WL_CONNECTED then 0 else 1) /\
  (w (polls s) = WL_CONNECTED ->
   count is_status (events (loop fuel tb w s)) = 1 /\
   spinning (loop fuel tb w s) = false) /\
  (forall ssid pass,
     In (EvWiFiBegin ssid pass) (events (loop fuel tb w s)) ->
     ssid = WIFI_SSID /\ pass = WIFI_PASSWORD).
Proof.
  destruct (reconnect_accounting fuel w s) as (B & _ & U & A).
  destruct (body_pieces s tb) as (B1 & B2 & B3 & B4).
  assert (Rest : forall t rest,
             count is_wifi_begin rest = 0 ->
             (forall ssid pass, In (EvWiFiBegin ssid pass) t ->
                                ssid = WIFI_SSID /\ pass = WIFI_PASSWORD) ->
             forall ssid pass, In (EvWiFiBegin ssid pass) (t ++ rest) ->
                               ssid = WIFI_SSID /\ pass = WIFI_PASSWORD).
  { intros t rest Z Ht ssid pass I. apply in_app_iff in I as [I|I].
    - now apply Ht.
    - now pose proof (count_zero_not_in _ _ Z _ I). }
  pass_cases fuel tb w s; rewrite Rec in *;
    cbn [events returned] in *; rewrite <- ?app_assoc;
    rewrite ?count_app, ?count_cons; count_by_class; explicit_counts.
  - split; [lia|]. split; [|exact A].
    intros X. destruct (U X) as [_ Y]. discriminate Y.
  - split; [lia|]. split; [intros X; destruct (U X); split; [lia|easy]|].
    apply Rest; [now count_by_class|exact A].
  - split; [lia|]. split; [intros X; destruct (U X); split; [lia|easy]|].
    apply Rest; [|exact A].
    rewrite ?count_app, ?count_cons. count_by_class. now explicit_counts.
  - split; [lia|]. split; [intros X; destruct (U X); split; [lia|easy]|].
    apply Rest; [|exact A].
    rewrite ?count_app, ?count_cons. count_by_class. now explicit_counts.
Qed.

(** *** The heartbeat *)

Lemma pass_heartbeat (fuel : nat) (tb : tb_replies) (w : WiFiOracle)
  (s : State) :
  count is_tb_loop (events (loop fuel tb w s)) =
  (if spinning (loop fuel tb w s) then 0
   else if connected_reply tb || connect_reply tb then 1 else 0) /\
  (2000 * Z.of_nat (count is_tb_loop (events (loop fuel tb w s)))
   <= time_delayed (events (loop fuel tb w s)))%Z.
Proof.
  destruct (reconnect_accounting fuel w s) as (_ & T & _).
  destruct (body_pieces s tb) as (B1 & B2 & B3 & B4).
  destruct (link_events_length tb) as [_ LT].
  destruct (report_events_length s tb) as [_ PT].
  destruct (request_events_length s tb) as [_ QT].
  assert (BT : time_delayed blink_events = 2000%Z) by reflexivity.
  pass_cases fuel tb w s; rewrite Rec in *; cbn [events] in *;
    rewrite <- ?app_assoc;
    rewrite ?count_app, ?count_cons, ?time_delayed_app;
    count_by_class; explicit_counts;
    rewrite ?(time_delayed_callbacks td) by assumption.
  - split; [reflexivity|lia].
  - rewrite Link1, Link2. split; [reflexivity|lia].
  - split; [destruct Link as [-> | ->]; now rewrite ?orb_true_r|lia].
  - split; [destruct Link as [-> | ->]; now rewrite ?orb_true_r|lia].
Qed.

Lemma loops_heartbeat (fuel : nat) (tbs : list tb_replies) (w : WiFiOracle) :
  forall s,
    count is_tb_loop (events (loops fuel tbs w s)) <= length tbs /\
    (2000 * Z.of_nat (count is_tb_loop (events (loops fuel tbs w s)))
     <= time_delayed (events (loops fuel tbs w s)))%Z.
Proof.
  induction tbs as [|tb tbs IH]; intros s; [cbn; split; lia|].
  rewrite loops_cons. destruct (pass_heartbeat fuel tb w s) as [C T].
  assert (C1 : count is_tb_loop (events (loop fuel tb w s)) <= 1).
  { rewrite C. destruct (spinning (loop fuel tb w s));
      [lia|destruct (connected_reply tb || connect_reply tb); lia]. }
  clear C.
  destruct (loop fuel tb w s) as [x s1 t1|s1 t1|s1 t1];
    cbn [events length] in *; try (split; lia).
  destruct (IH s1) as [C' T'].
  rewrite events_prepend, count_app, time_delayed_app. split; lia.
Qed.

(** X4: the heartbeat throttles the client.  A pass through [loop] calls
    [tb.loop()] once if it gets past the connection checks and not at all
    otherwise, and only after [blink] has spent 2000 ms in [delay]; so in
    any session the number of [tb.loop()] calls is at most the number of
    passes and at most the total delay divided by 2000 ms. *)
Theorem tb_loop_runs_at_most_once_per_two_seconds :
  (forall fuel tb (w : WiFiOracle) s,
     count is_tb_loop (events (loop fuel tb w s)) =
     (if spinning (loop fuel tb w s) then 0
      else if connected_reply tb || connect_reply tb then 1 else 0) /\
     (2000 * Z.of_nat (count is_tb_loop (events (loop fuel tb w s)))
      <= time_delayed (events (loop fuel tb w s)))%Z) /\
  (forall fuel tbs (w : WiFiOracle) s,
     count is_tb_loop (events (arduino_main fuel tbs w s)) <= length tbs /\
     (1000 + 2000 * Z.of_nat (count is_tb_loop
                                 (events (arduino_main fuel tbs w s)))
      <= time_delayed (events (arduino_main fuel tbs w s)))%Z).
Proof.
  split; [exact pass_heartbeat|].
  intros fuel tbs w s. unfold arduino_main, bind. rewrite setup_unfold.
  destruct (initializeWiFi_shape fuel w s)
    as (s' & tw & F & T & P & G & [(E & C & L)|(E & C)]); rewrite E.
  - destruct (loops_heartbeat fuel tbs w s') as [C' T'].
    rewrite events_prepend, count_app, time_delayed_app.
    rewrite !app_comm_cons, !count_app, !time_delayed_app.
    explicit_counts. count_by_class. rewrite T. split; lia.
  - cbn [events]. explicit_counts. count_by_class. rewrite T. split; lia.
Qed.

(** *** The update subscription of lines 88-91 *)

Lemma pass_subscription_counts (fuel : nat) (tb : tb_replies)
  (w : WiFiOracle) (s : State) :
  count is_subscribe (events (loop fuel tb w s)) <= 1 /\
  count is_subscribe_success (events (loop fuel tb w s)) =
  (if updateRequestSent s then 0
   else if updateRequestSent (final (loop fuel tb w s)) then 1 else 0).
Proof.
  destruct (pass_summary fuel tb w s)
    as (reached & pre & post & -> & Qpre & Qpost & _ & -> & _).
  unfold report_events, request_events. rewrite !count_app.
  guarded_counts.
  destruct reached, (currentFWSent s), (updateRequestSent s),
    (send_info_reply tb), (subscribe_reply tb); cbn; split; lia.
Qed.

Lemma loops_subscription_success (fuel : nat) (tbs : list tb_replies)
  (w : WiFiOracle) :
  forall s,
    count is_subscribe_success (events (loops fuel tbs w s))
    <= (if updateRequestSent s then 0 else 1).
Proof.
  induction tbs as [|tb tbs IH]; intros s.
  - cbn. destruct (updateRequestSent s); lia.
  - rewrite loops_cons.
    destruct (pass_subscription_counts fuel tb w s) as (_ & C).
    pose proof (pass_request_kept fuel tb w s) as K.
    destruct (loop fuel tb w s) as [x s1 t1|s1 t1|s1 t1];
      cbn [final events] in *;
      try (rewrite C;
           destruct (updateRequestSent s), (updateRequestSent s1); lia).
    specialize (IH s1). rewrite events_prepend, count_app, C.
    destruct (updateRequestSent s) eqn:F.
    + destruct K as (K1 & _); [reflexivity|]. rewrite K1 in IH. lia.
    + destruct (updateRequestSent s1); lia.
Qed.

(** X5: the update subscription is tried again in every pass until it is
    accepted.  A pass that gets past the connection checks with
    [updateRequestSent] unset prints the announcement, calls
    [Subscribe_Firmware_Update] with the [callback] object exactly once
    and stores the result in the flag, whatever the firmware report of the
    same pass returned.  No pass subscribes twice, and in a whole session
    the subscription succeeds at most once. *)
Theorem update_subscription_is_retried_until_accepted :
  (forall fuel tb (w : WiFiOracle) s,
     updateRequestSent s = false ->
     spinning (loop fuel tb w s) = false ->
     connected_reply tb = true \/ connect_reply tb = true ->
     In (EvSerialPrintln "Firwmare Update Subscription...")
        (events (loop fuel tb w s)) /\
     In (EvSubscribeFirmwareUpdate callback (subscribe_reply tb))
        (events (loop fuel tb w s)) /\
     count is_subscribe (events (loop fuel tb w s)) = 1 /\
     updateRequestSent (final (loop fuel tb w s)) = subscribe_reply tb) /\
  (forall fuel tb (w : WiFiOracle) s,
     count is_subscribe (events (loop fuel tb w s)) <= 1) /\
  (forall fuel tbs (w : WiFiOracle),
     count is_subscribe_success
           (events (arduino_main fuel tbs w initial_state)) <= 1).
Proof.
  split; [|split].
  - intros fuel tb w s H Sp Li.
    destruct (pass_summary fuel tb w s)
      as (reached & pre & post & -> & Qpre & Qpost & _ & -> & R).
    destruct reached; [|pose proof (proj2 R (conj Sp Li)); discriminate].
    unfold report_events, request_events.
    rewrite H, !count_app, !in_app_iff. guarded_counts.
    destruct (currentFWSent s), (send_info_reply tb); cbn;
      repeat split; tauto.
  - intros fuel tb w s. apply pass_subscription_counts.
  - intros fuel tbs w. unfold arduino_main, bind.
    destruct (setup_cases fuel w initial_state)
      as (s' & t & [_ F] & B & [E|E]); rewrite E; cbn [events].
    + pose proof (loops_subscription_success fuel tbs w s') as L.
      rewrite F in L. cbn in L.
      rewrite events_prepend, count_app.
      rewrite (count_no_guarded_call is_subscribe_success t);
        [lia| |now apply boot_no_guarded_call].
      intros [] X; (discriminate X || reflexivity).
    + rewrite (count_no_guarded_call is_subscribe_success t);
        [lia| |now apply boot_no_guarded_call].
      intros [] X; (discriminate X || reflexivity).
Qed.

(** *** The server connection of lines 74-82 *)

Lemma tail_pieces_without_link (s : State) (tb : tb_replies) :
  count is_connect (report_events s tb) = 0 /\
  count is_connect (request_events s tb) = 0 /\
  count is_connect blink_events = 0 /\
  count is_connected_query (report_events s tb) = 0 /\
  count is_connected_query (request_events s tb) = 0 /\
  count is_connected_query blink_events = 0.
Proof.
  unfold report_events, request_events.
  destruct (currentFWSent s), (updateRequestSent s), (send_info_reply tb);
    now cbn.
Qed.

Lemma pass_link_anatomy (fuel : nat) (tb : tb_replies) (w : WiFiOracle)
  (s : State) :
  exists a b,
    events (loop fuel tb w s) =
    a ++ (if spinning (loop fuel tb w s) then [] else link_events tb) ++ b /\
    count is_connect a = 0 /\ count is_connect b = 0 /\
    count is_connected_query a = 0 /\ count is_connected_query b = 0.
Proof.
  destruct (tail_pieces_without_link s tb) as (A1 & A2 & A3 & A4 & A5 & A6).
  pass_cases fuel tb w s.
  - exists t1, []. rewrite !app_nil_r. split; [reflexivity|].
    repeat split; now count_by_class.
  - exists t1, []. rewrite !app_nil_r. split; [reflexivity|].
    repeat split; now count_by_class.
  - exists t1, (report_events s tb ++ request_events s tb ++ blink_events ++
                EvTbLoop :: td).
    split; [now rewrite <- !app_assoc|].
    rewrite !count_app, !count_cons, A1, A2, A3, A4, A5, A6.
    count_by_class. now repeat split.
  - exists t1, (report_events s tb ++ request_events s tb ++ blink_events ++
                EvTbLoop :: td).
    split; [now rewrite <- !app_assoc|].
    rewrite !count_app, !count_cons, A1, A2, A3, A4, A5, A6.
    count_by_class. now repeat split.
Qed.

(** X6: a pass through [loop] that gets past [reconnect] asks
    [tb.connected()] exactly once and calls [tb.connect] only if the answer
    was false, then once and with the configured server, token and port.
    When that call succeeds the same pass goes on to the firmware report
    and to [tb.loop()] instead of waiting for the next pass. *)
Theorem server_connection_is_attempted_only_when_needed
  (fuel : nat) (tb : tb_replies) (w : WiFiOracle) (s : State) :
  count is_connected_query (events (loop fuel tb w s)) =
  (if spinning (loop fuel tb w s) then 0 else 1) /\
  count is_connect (events (loop fuel tb w s)) =
  (if spinning (loop fuel tb w s) then 0
   else if connected_reply tb then 0 else 1) /\
  (forall h t p r,
     In (EvTbConnect h t p r) (events (loop fuel tb w s)) ->
     h = TONYSPACE_SERVER /\ t = TOKEN /\ p = TONYSPACE_PORT /\
     r = connect_reply tb /\ connected_reply tb = false) /\
  (spinning (loop fuel tb w s) = false ->
   connected_reply tb = false -> connect_reply tb = true ->
   count is_tb_loop (events (loop fuel tb w s)) = 1 /\
   forall x s' t, loop fuel tb w s = Done x s' t -> x = Return_end).
Proof.
  destruct (pass_link_anatomy fuel tb w s) as (a & b & E & A1 & B1 & A2 & B2).
  split; [|split; [|split]].
  - rewrite E, !count_app, A2, B2. unfold link_events.
    destruct (spinning (loop fuel tb w s)), (connected_reply tb),
      (connect_reply tb); reflexivity.
  - rewrite E, !count_app, A1, B1. unfold link_events.
    destruct (spinning (loop fuel tb w s)), (connected_reply tb),
      (connect_reply tb); reflexivity.
  - intros h t p r I. rewrite E, !in_app_iff in I.
    destruct I as [I|[I|I]].
    + now pose proof (count_zero_not_in _ _ A1 _ I).
    + unfold link_events in I.
      destruct (spinning (loop fuel tb w s)), (connected_reply tb),
        (connect_reply tb); cbn in I;
        repeat match goal with
        | H : _ \/ _ |- _ => destruct H
        | H : False |- _ => destruct H
        | H : _ = EvTbConnect _ _ _ _ |- _ => inversion H; clear H
        end; now repeat split.
    + now pose proof (count_zero_not_in _ _ B1 _ I).
  - intros Sp C1 C2.
    destruct (pass_heartbeat fuel tb w s) as [H _].
    rewrite Sp, C1, C2 in H. split; [exact H|].
    intros x s' t. pass_cases fuel tb w s; congruence.
Qed.

(** C5, as the code has it: in a pass through [loop] every protocol action
    (firmware info, firmware state, update subscription, [tb.loop()]) comes
    after a [WiFi.status()] poll that answered [WL_CONNECTED] and after a
    positive answer about the server link.  When the server link cannot be
    established the pass returns early, at line 80, with no protocol action
    and the flags unchanged.  When WiFi is down the pass does not return
    early: the [return] of line 71 is never taken; the pass waits inside
    [initializeWiFi], with no protocol action and the flags unchanged, and
    once a poll answers [WL_CONNECTED] the same pass carries on to the
    server check and, if that passes, to [tb.loop()]. *)
Theorem protocol_only_when_connected
  (fuel : nat) (tb : tb_replies) (w : WiFiOracle) (s : State) :
  (forall pre e post,
     events (loop fuel tb w s) = pre ++ e :: post ->
     protocol_event e = true ->
     last_status pre = Some WL_CONNECTED /\ server_link pre = Some true) /\
  (connected_reply tb = false -> connect_reply tb = false ->
   count protocol_event (events (loop fuel tb w s)) = 0 /\
   same_flags s (final (loop fuel tb w s)) /\
   rebooted (loop fuel tb w s) = false /\
   (forall x s' t, loop fuel tb w s = Done x s' t -> x = Return_line_80) /\
   (forall d, first_up w (polls s) d -> d <= fuel ->
      returned (loop fuel tb w s) = true)) /\
  (spinning (loop fuel tb w s) = true ->
   count protocol_event (events (loop fuel tb w s)) = 0 /\
   same_flags s (final (loop fuel tb w s))) /\
  (forall x s' t, loop fuel tb w s = Done x s' t -> x <> Return_line_71) /\
  (w (polls s) <> WL_CONNECTED ->
   count is_wifi_begin (events (loop fuel tb w s)) = 1 /\
   (down_for w (polls s) (S fuel) ->
    spinning (loop fuel tb w s) = true /\
    returned (loop fuel tb w s) = false) /\
   (forall d, first_up w (polls s) d -> d <= fuel ->
      spinning (loop fuel tb w s) = false /\
      count is_connected_query (events (loop fuel tb w s)) = 1 /\
      count is_tb_loop (events (loop fuel tb w s)) =
      (if connected_reply tb || connect_reply tb then 1 else 0))).
Proof.
  destruct (protocol_gate_facts fuel tb w s) as (G1 & G2 & G3).
  split; [exact G1|]. split; [exact G2|]. split; [exact G3|].
  assert (Ends : forall d, first_up w (polls s) d -> d <= fuel ->
                           spinning (loop fuel tb w s) = false).
  { intros d Hd Hf.
    destruct (reconnect_done d fuel w s Hd Hf) as (t & E & _).
    pass_cases fuel tb w s; congruence. }
  split; [|intros Down; split; [|split]].
  - intros x s' t. pass_cases fuel tb w s; intros X; congruence.
  - destruct (reconnect_accounting fuel w s) as (B & _).
    destruct (body_pieces s tb) as (B1 & B2 & B3 & B4).
    destruct (wl_status_eq_dec (w (polls s)) WL_CONNECTED) as [U|_];
      [contradiction|].
    pass_cases fuel tb w s; rewrite Rec in B; cbn [events] in B;
      rewrite <- ?app_assoc; rewrite ?count_app, ?count_cons;
      count_by_class; explicit_counts; lia.
  - intros D. pose proof (loop_spins fuel tb w s D) as Sp.
    split; [exact Sp|]. now destruct (loop fuel tb w s).
  - intros d Hd Hf. pose proof (Ends d Hd Hf) as Sp.
    destruct (pass_heartbeat fuel tb w s) as [H _].
    destruct (pass_link_anatomy fuel tb w s)
      as (a & b & E & _ & _ & A2 & B2).
    rewrite Sp in H, E. split; [exact Sp|]. split; [|exact H].
    rewrite E, !count_app, A2, B2. unfold link_events.
    destruct (connected_reply tb), (connect_reply tb); reflexivity.
Qed.

(** *** A session *)

Lemma last_status_in (t : list event) (r : wl_status_t) :
  last_status t = Some r -> In (EvWiFiStatus r) t.
Proof.
  induction t as [|e t IH]; [discriminate|]. cbn.
  destruct (last_status t) as [r'|].
  - intros X. right. now apply IH.
  - destruct e; try discriminate. intros X. injection X as ->. now left.
Qed.

(** X7: in a session no ThingsBoard call is made before [setup] has
    returned: every client call in the trace comes after [Serial.begin],
    [WiFi.begin], a status poll that answered [WL_CONNECTED] and the
    configuration of the LED pin. *)
Theorem client_calls_come_after_setup
  (fuel : nat) (tbs : list tb_replies) (w : WiFiOracle) (s : State)
  (pre post : list event) (e : event) :
  events (arduino_main fuel tbs w s) = pre ++ e :: post ->
  tb_call e = true ->
  In (EvSerialBegin SERIAL_DEBUG_BAUD) pre /\
  In (EvWiFiBegin WIFI_SSID WIFI_PASSWORD) pre /\
  In (EvWiFiStatus WL_CONNECTED) pre /\
  In (EvPinMode LED_BUILTIN OUTPUT) pre.
Proof.
  unfold arduino_main, bind. rewrite setup_unfold.
  destruct (initializeWiFi_shape fuel w s)
    as (s' & tw & F & T & P & G & [(E & C & L)|(E & C)]); rewrite E.
  - rewrite events_prepend. intros H Call.
    apply (split_after_prefix tb_call) in H as (pre' & -> & _);
      [| |exact Call].
    + apply last_status_in in L. rewrite !in_app_iff. cbn.
      rewrite !in_app_iff. cbn. tauto.
    + rewrite !app_comm_cons, !count_app. explicit_counts.
      now count_by_class.
  - cbn [events]. intros H Call. exfalso.
    assert (Z : count tb_call
                  (EvSerialBegin SERIAL_DEBUG_BAUD :: EvDelay 1000
                   :: EvSerialPrintln "Connecting to AP ..."
                   :: EvWiFiBegin WIFI_SSID WIFI_PASSWORD :: tw) = 0).
    { explicit_counts. now count_by_class. }
    pose proof (count_zero_not_in _ _ Z e) as N.
    rewrite N in Call; [discriminate|]. rewrite H. apply in_elt.
Qed.

(** *** The progress report *)

(** X8: [progressCallback] prints one ratio and changes nothing else.  The
    numerator is the 32-bit product [currentChunk * 100]: it equals
    [100 * currentChunk] exactly for chunk numbers up to 42949672 and
    wraps around above; below that bound a chunk number of at most
    [totalChuncks] gives a numerator of at most [100 * totalChuncks]. *)
Theorem progress_numerator_is_exact_below_the_32_bit_wrap
  (currentChunk totalChuncks : Z) (w : WiFiOracle) (s : State) :
  (0 <= currentChunk < 2 ^ 32)%Z ->
  exists num,
    progressCallback currentChunk totalChuncks w s =
    Done tt s [EvSerialPrintfRatio progress_format num totalChuncks] /\
    (0 <= num < 2 ^ 32)%Z /\
    (num = 100 * currentChunk <-> currentChunk <= 42949672)%Z /\
    (currentChunk <= 42949672 -> currentChunk <= totalChuncks ->
     num <= 100 * totalChuncks)%Z.
Proof.
  intros R. exists (uint32_t (currentChunk * 100)).
  split; [reflexivity|]. unfold uint32_t.
  assert (B : (0 <= (currentChunk * 100) mod 2 ^ 32 < 2 ^ 32)%Z)
    by (apply Z.mod_pos_bound; lia).
  split; [exact B|].
  assert (Small : (currentChunk <= 42949672 ->
                   (currentChunk * 100) mod 2 ^ 32 = 100 * currentChunk)%Z).
  { intros H. rewrite Z.mod_small; lia. }
  split; [split|].
  - intros H. lia.
  - exact Small.
  - intros H1 H2. rewrite (Small H1). lia.
Qed.

(** *** The steady state *)

(** X9: once both flags are set, a pass that finds WiFi and the server
    connected does nothing but the heartbeat and the message processing:
    one status poll, one [tb.connected()], [blink], [tb.loop()] and the
    callbacks the client runs; no report, no subscription, no connection
    attempt, and the flags stay set. *)
Theorem steady_state_pass
  (fuel : nat) (tb : tb_replies) (w : WiFiOracle) (s : State) :
  currentFWSent s = true -> updateRequestSent s = true ->
  w (polls s) = WL_CONNECTED -> connected_reply tb = true ->
  exists td,
    Forall (fun e => callback_event e = true) td /\
    events (loop fuel tb w s) =
    EvWiFiStatus WL_CONNECTED :: EvTbConnected true
    :: blink_events ++ EvTbLoop :: td /\
    final (loop fuel tb w s) = polled s /\
    spinning (loop fuel tb w s) = false /\
    (rebooted (loop fuel tb w s) = true <->
     In (Finished true) (loop_dispatch tb)).
Proof.
  intros F1 F2 U C.
  assert (R : reconnect fuel w s =
              Done true (polled s) [EvWiFiStatus WL_CONNECTED]).
  { rewrite reconnect_unfold.
    destruct (wl_status_eq_dec (w (polls s)) WL_CONNECTED) as [_|D];
      [now rewrite U|contradiction]. }
  assert (St : tail_state (polled s) tb = polled s).
  { unfold tail_state, polled. cbn. now rewrite F1, F2. }
  pass_cases fuel tb w s; try congruence;
    rewrite R in Rec; injection Rec as <- <-;
    exists td; (split; [assumption|]);
    unfold link_events, report_events, request_events;
    rewrite C, F1, F2, St; cbn [app];
    (split; [reflexivity|]); (split; [reflexivity|]);
    (split; [reflexivity|]); split; intros X;
    (assumption || discriminate || contradiction || reflexivity).
Qed.

End Properties.

(** ** The eligibility check *)

Lemma fields_lt_irrefl (a : list nat) : fields_lt a a = false.
Proof.
  induction a as [|x a IH]; [reflexivity|].
  cbn [fields_lt]. now rewrite Nat.ltb_irrefl.
Qed.

Lemma version_older_differs (a b : string) :
  version_older a b = true -> a <> b.
Proof.
  intros H ->. unfold version_older in H.
  rewrite fields_lt_irrefl in H. discriminate H.
Qed.

(** C1: an update is needed exactly when the announced title equals the
    running title and the announced version differs from the running one.
    No order on versions is looked at: an announced version that is older
    than the running one is eligible as well.  The three rows of the table
    are instances. *)
Theorem update_needed_iff_same_title_other_version
  (running announced : FirmwareDescriptor) :
  (is_update_needed running announced = true <->
   title running = title announced /\
   version running <> version announced) /\
  (title running = title announced ->
   version_older (version announced) (version running) = true ->
   is_update_needed running announced = true) /\
  (title running = title announced ->
   version running = "1.0.0" -> version announced = "1.0.0" ->
   is_update_needed running announced = false) /\
  (title running = title announced ->
   version running = "1.0.0" -> version announced = "0.9.0" ->
   version_older (version announced) (version running) = true /\
   is_update_needed running announced = true) /\
  (title running <> title announced ->
   is_update_needed running announced = false).
Proof.
  unfold is_update_needed.
  destruct (String.eqb_spec (title running) (title announced)) as [T|T];
    destruct (String.eqb_spec (version running) (version announced))
      as [V|V]; cbn.
  - split; [split; [discriminate|tauto]|].
    split; [intros _ H; apply version_older_differs in H; congruence|].
    split; [reflexivity|]. split; [|contradiction].
    intros _ V1 V2. rewrite V1, V2 in V. discriminate V.
  - split; [split; [now split|reflexivity]|].
    split; [reflexivity|]. split; [congruence|].
    split; [|contradiction]. intros _ -> ->. now split.
  - split; [split; [discriminate|tauto]|]. repeat split; tauto.
  - split; [split; [discriminate|tauto]|]. repeat split; tauto.
Qed.

(** The sketch's own firmware against an announced older version. *)
Lemma downgrade_witness :
  title running_firmware = title announced_downgrade /\
  version_older (version announced_downgrade) (version running_firmware)
  = true /\
  is_update_needed running_firmware announced_downgrade = true.
Proof.
  split; [reflexivity|]. split; [reflexivity|].
  apply (proj1 (proj2 (update_needed_iff_same_title_other_version
                         running_firmware announced_downgrade)));
    reflexivity.
Defined.

(** ** Concrete runs *)

Local Open Scope list_scope.

Ltac status_differs :=
  let H := fresh in intros H; vm_compute in H; discriminate H.

(** C2, as stated, fails: [Firmware_Send_Info] succeeds in the first pass,
    [Firmware_Send_State] does not, the flag stays unset, and the second
    pass sends the same firmware info again. *)
Lemma send_info_sent_again_after_it_succeeded :
  count is_info_success
        (events (arduino_main 1 [state_refused] always_up initial_state))
  = 1 /\
  currentFWSent
    (final (arduino_main 1 [state_refused] always_up initial_state))
  = false /\
  count is_info_success
        (events (arduino_main 1 [state_refused; state_refused] always_up
                              initial_state))
  = 2.
Proof. repeat split. Qed.

(** A pass with the flag unset that gets past the connection checks. *)
Lemma firmware_report_witness :
  currentFWSent initial_state = false /\
  spinning (loop 0 state_refused always_up initial_state) = false /\
  currentFWSent (final (loop 0 state_refused always_up initial_state)) =
  send_info_reply state_refused && send_state_reply state_refused.
Proof.
  split; [reflexivity|]. split; [reflexivity|].
  apply (proj2 (proj2 (proj1 (firmware_report_guarded_by_one_flag
                                (wifi_type := Arduino.wifi))
                             0 state_refused always_up initial_state)));
    [reflexivity|reflexivity|left; reflexivity].
Defined.

(** The first boot with a client that accepts everything. *)
Lemma send_state_order_witness :
  let run := events (arduino_main 1 [all_fine] always_up initial_state) in
  run = firstn 10 run ++ EvFirmwareSendState "UPDATED" true :: skipn 11 run /\
  "UPDATED" = FW_STATE_UPDATED /\
  exists pre',
    firstn 10 run =
    pre' ++ [EvFirmwareSendInfo CURRENT_FIRMWARE_TITLE
                                CURRENT_FIRMWARE_VERSION true].
Proof.
  intros run. split; [reflexivity|].
  apply (send_state_follows_successful_send_info
           1 [all_fine] always_up (firstn 10 run) (skipn 11 run)
           "UPDATED" true).
  reflexivity.
Defined.

(** C4, as stated, fails: called with [success == true] the callback
    restarts the device itself; the pass through [loop] in which the client
    reports the finished update does not return to its caller and ends
    with [esp_restart()]. *)
Lemma successful_update_restarts_inside_the_callback :
  updatedCallback true always_up initial_state =
  Reboot initial_state [EvSerialPrintln "Done, Reboot now"; EvEspRestart] /\
  rebooted (loop 0 update_done always_up initial_state) = true /\
  returned (loop 0 update_done always_up initial_state) = false /\
  last (events (loop 0 update_done always_up initial_state)) EvTbLoop =
  EvEspRestart.
Proof. repeat split. Qed.

Lemma restart_in_place_witness :
  spinning (loop 0 update_done always_up initial_state) = false /\
  In (Finished true) (loop_dispatch update_done) /\
  rebooted (loop 0 update_done always_up initial_state) = true.
Proof.
  split; [reflexivity|]. split; [right; left; reflexivity|].
  apply (proj2 (proj2 (proj2 (updatedCallback_restarts_in_place
                                (wifi_type := Arduino.wifi))))
           0 update_done always_up initial_state);
    [reflexivity|left; reflexivity|right; left; reflexivity].
Defined.

(** C6, as stated, fails: while [WiFi.status()] keeps answering
    [WL_DISCONNECTED], a pass through [loop] is still inside the wait loop
    of [initializeWiFi] after any number of polls. *)
Lemma loop_never_ends_while_wifi_is_down :
  (forall k, never_up k = Arduino.WL_DISCONNECTED) /\
  (forall fuel,
     spinning (loop fuel all_fine never_up initial_state) = true).
Proof.
  split; [reflexivity|]. intros fuel. apply loop_spins.
  intros j _. status_differs.
Qed.

(** The access point answers at the third poll. *)
Lemma loop_ends_witness :
  first_up (up_after 2) (polls initial_state) 2 /\
  spinning (loop 5 all_fine (up_after 2) initial_state) = false /\
  polls (final (loop 5 all_fine (up_after 2) initial_state)) = 3.
Proof.
  assert (U : first_up (up_after 2) (polls initial_state) 2).
  { split; [reflexivity|]. intros j Hj.
    destruct j as [|[|j]]; [status_differs|status_differs|lia]. }
  split; [exact U|].
  destruct (proj1 (loop_ends_iff_wifi_comes_up
                     5 all_fine (up_after 2) initial_state) 2 U)
    as (A & B & _); [lia|].
  split; [exact A|exact B].
Defined.

(** The server refuses the connection after the access point came up. *)
Lemma protocol_gate_witness :
  connected_reply server_down = false /\
  connect_reply server_down = false /\
  count protocol_event
        (events (loop 5 server_down (up_after 2) initial_state)) = 0 /\
  same_flags initial_state
             (final (loop 5 server_down (up_after 2) initial_state)).
Proof.
  split; [reflexivity|]. split; [reflexivity|].
  destruct (proj1 (proj2 (protocol_only_when_connected
                            5 server_down (up_after 2) initial_state))
              eq_refl eq_refl) as (A & B & _).
  split; [exact A|exact B].
Defined.

(** The subscription made in the first pass after boot. *)
Lemma subscription_witness :
  In (EvSubscribeFirmwareUpdate
        (mkOTA addr_progressCallback addr_updatedCallback
               "ESPino32" "1.0.0" 5 4096) true)
     (events (arduino_main 1 [all_fine] always_up initial_state)) /\
  mkOTA addr_progressCallback addr_updatedCallback "ESPino32" "1.0.0" 5 4096
  = callback.
Proof.
  assert (I : In (EvSubscribeFirmwareUpdate
                    (mkOTA addr_progressCallback addr_updatedCallback
                           "ESPino32" "1.0.0" 5 4096) true)
                 (events (arduino_main 1 [all_fine] always_up
                                       initial_state))).
  { cbn. do 12 right. left. reflexivity. }
  split; [exact I|].
  exact (proj2 (proj2 (proj2 (proj2 (proj2 (proj2 (proj2
           (subscription_uses_configured_values
              (wifi_type := Arduino.wifi))))))))
           1 [all_fine] always_up initial_state _ true I).
Defined.


(** The access point answers at the third poll of [reconnect]. *)
Lemma reconnect_witness :
  first_up (up_after 2) (polls initial_state) 2 /\
  exists t,
    reconnect 5 (up_after 2) initial_state =
    Done true (mkState false false 3) t /\
    last_status t = Some Arduino.WL_CONNECTED.
Proof.
  assert (U : first_up (up_after 2) (polls initial_state) 2).
  { split; [reflexivity|]. intros j Hj.
    destruct j as [|[|j]]; [status_differs|status_differs|lia]. }
  split; [exact U|].
  apply (proj1 (proj2 (proj2 (proj2
           (reconnect_only_returns_true 5 (up_after 2) initial_state))))
           2 U).
  lia.
Defined.


(** ** Concrete runs for the further properties *)

(** The server connection was lost and [tb.connect] restores it. *)
Definition server_back : tb_replies :=
  mkReplies false true true true true [].


Lemma setup_witness :
  first_up (up_after 2) (polls initial_state) 2 /\
  returned (setup 5 (up_after 2) initial_state) = true /\
  polls (final (setup 5 (up_after 2) initial_state)) = 3 /\
  time_delayed (events (setup 5 (up_after 2) initial_state)) = 2000%Z.
Proof.
  assert (U : first_up (up_after 2) (polls initial_state) 2).
  { split; [reflexivity|]. intros j Hj.
    destruct j as [|[|j]]; [status_differs|status_differs|lia]. }
  split; [exact U|].
  apply (proj1 (proj2 (proj2 (proj2 (proj2 (proj2 (proj2 (proj2 (proj2
           (setup_configures_the_led_after_wifi
              5 (up_after 2) initial_state)))))))))
           2 U).
  lia.
Defined.

(** WiFi is up at the first poll of the pass. *)
Lemma wifi_not_restarted_witness :
  always_up (polls initial_state) = Arduino.WL_CONNECTED /\
  count is_status (events (loop 0 all_fine always_up initial_state)) = 1 /\
  spinning (loop 0 all_fine always_up initial_state) = false.
Proof.
  split; [reflexivity|].
  apply (proj1 (proj2 (wifi_is_restarted_only_when_the_first_poll_fails
                         0 all_fine always_up initial_state))).
  reflexivity.
Defined.

(** The firmware state is refused, the subscription is accepted. *)
Lemma subscription_retry_witness :
  updateRequestSent initial_state = false /\
  send_state_reply state_refused = false /\
  count is_subscribe
        (events (loop 0 state_refused always_up initial_state)) = 1 /\
  updateRequestSent (final (loop 0 state_refused always_up initial_state))
  = true.
Proof.
  split; [reflexivity|]. split; [reflexivity|].
  destruct (proj1 (update_subscription_is_retried_until_accepted
                     (wifi_type := Arduino.wifi))
              0 state_refused always_up initial_state eq_refl eq_refl
              (or_introl eq_refl)) as (_ & _ & A & B).
  split; [exact A|exact B].
Defined.

Lemma server_connection_witness :
  spinning (loop 0 server_back always_up initial_state) = false /\
  connected_reply server_back = false /\
  connect_reply server_back = true /\
  count is_tb_loop (events (loop 0 server_back always_up initial_state)) = 1.
Proof.
  split; [reflexivity|]. split; [reflexivity|]. split; [reflexivity|].
  apply (proj2 (proj2 (proj2
           (server_connection_is_attempted_only_when_needed
              0 server_back always_up initial_state))));
    reflexivity.
Defined.

(** The first client call of a session is [tb.connected()]. *)
Lemma client_calls_witness :
  let run := events (arduino_main 1 [all_fine] always_up initial_state) in
  run = firstn 8 run ++ EvTbConnected true :: skipn 9 run /\
  In (EvPinMode LED_BUILTIN OUTPUT) (firstn 8 run).
Proof.
  intros run. split; [reflexivity|].
  apply (client_calls_come_after_setup
           1 [all_fine] always_up initial_state
           (firstn 8 run) (skipn 9 run) (EvTbConnected true));
    reflexivity.
Defined.

(** The first of three chunks. *)
Lemma progress_witness :
  (0 <= 1 < 2 ^ 32)%Z /\
  exists num,
    progressCallback 1 3 always_up initial_state =
    Done tt initial_state [EvSerialPrintfRatio progress_format num 3] /\
    (0 <= num < 2 ^ 32)%Z.
Proof.
  assert (R : (0 <= 1 < 2 ^ 32)%Z) by lia.
  split; [exact R|].
  destruct (progress_numerator_is_exact_below_the_32_bit_wrap
              1 3 always_up initial_state R) as (num & A & B & _).
  exists num. split; [exact A|exact B].
Defined.

(** Both flags set, WiFi and server connected, nothing to dispatch. *)
Lemma steady_state_witness :
  exists td : list (@event Arduino.wifi),
    events (loop 0 all_fine always_up (mkState true true 2)) =
    @EvWiFiStatus Arduino.wifi Arduino.WL_CONNECTED :: EvTbConnected true
    :: blink_events ++ EvTbLoop :: td /\
    final (loop 0 all_fine always_up (mkState true true 2)) =
    mkState true true 3.
Proof.
  destruct (steady_state_pass 0 all_fine always_up (mkState true true 2)
              eq_refl eq_refl eq_refl eq_refl) as (td & _ & A & B & _).
  exists td. split; [exact A|exact B].
Defined.

(** C5, as stated, fails for the WiFi link: while [WiFi.status()] keeps
    answering [WL_DISCONNECTED] the pass never returns, early or otherwise;
    and a pass that starts disconnected and sees [WL_CONNECTED] at its
    second poll does not return early either but goes on, in the same pass,
    to the firmware report, the subscription and [tb.loop()]. *)
Lemma wifi_down_pass_does_not_return_early :
  (forall fuel,
     returned (loop fuel server_down never_up initial_state) = false /\
     spinning (loop fuel server_down never_up initial_state) = true) /\
  up_after 1 (polls initial_state) = Arduino.WL_DISCONNECTED /\
  loop 5 all_fine (up_after 1) initial_state =
  Done Return_end (mkState true true 2)
       (events (loop 5 all_fine (up_after 1) initial_state)) /\
  count protocol_event (events (loop 5 all_fine (up_after 1) initial_state))
  = 4.
Proof.
  split; [|repeat split].
  intros fuel.
  assert (Sp : spinning (loop fuel server_down never_up initial_state)
               = true).
  { apply loop_spins. intros j _. status_differs. }
  split; [|exact Sp].
  now destruct (loop fuel server_down never_up initial_state).
Qed.
